(** * Contacts API: authentication and owner scoping

    A shallow embedding of [src/api/main.py] and [src/api/schemas.py].

    The request handlers of [main.py] are embedded one definition per Python
    function.  The database session is an explicit store value that is
    threaded through the handlers that write to it.  The clock read by the
    JWT library and by the token issuer is an explicit argument [now]
    (seconds since the epoch).  Exceptions are a result type.

    The modules [crud], [auth] and [models] of the repository are imported
    by [main.py] but are not among the sources.  The handlers are written
    against an interface of [crud] (a type class), so that what is proved
    about a handler alone holds for every implementation of the store; a
    list-backed store and the token issuer are modelled from the
    specification for the statements that need them. *)

From Stdlib Require Import ZArith List String Bool Lia DecimalString.
Import ListNotations.

Set Implicit Arguments.
Open Scope Z_scope.

(** ** Python dictionaries with string keys (JSON objects)

    The values are strings and integers, which is what the program puts in
    a token.  JSON null, booleans, numbers with a fraction, arrays and
    objects are not represented. *)

Inductive JValue : Type :=
| JStr (s : string)
| JInt (z : Z).

Definition Dict : Type := list (string * JValue).

(** [d.get(k)] *)
Fixpoint dict_get (k : string) (d : Dict) : option JValue :=
  match d with
  | [] => None
  | (k', v) :: rest => if String.eqb k k' then Some v else dict_get k rest
  end.

(** [d.update({k: v})]: replaces the value of a present key, appends an
    absent one. *)
Fixpoint dict_update (k : string) (v : JValue) (d : Dict) : Dict :=
  match d with
  | [] => [(k, v)]
  | (k', v') :: rest =>
      if String.eqb k k' then (k', v) :: rest
      else (k', v') :: dict_update k v rest
  end.

(** ** HTTP outcomes of a handler *)

Module http.

Definition HTTP_200_OK : Z := 200.
Definition HTTP_201_CREATED : Z := 201.
Definition HTTP_204_NO_CONTENT : Z := 204.
Definition HTTP_401_UNAUTHORIZED : Z := 401.
Definition HTTP_500_INTERNAL_SERVER_ERROR : Z := 500.

Record HTTPException : Type := mkHTTPException {
  status_code : Z;
  detail : string;
  headers : list (string * string)
}.

(** What a call of a Python handler does: it returns a value, raises an
    [HTTPException], or raises an exception of another class, which the
    framework does not translate. *)
Inductive Outcome (A : Type) : Type :=
| Return (a : A)
| Raise (e : HTTPException)
| Uncaught (exc : string).

Arguments Return {A} a.
Arguments Raise {A} e.
Arguments Uncaught {A} exc.

(** The response the framework sends for an outcome of a route declared
    with [status_code=success].  The body is the value that the handler
    returned, before the framework serialises it through the
    [response_model] of the route. *)
Record Response (A : Type) : Type := mkResponse {
  resp_status : Z;
  resp_headers : list (string * string);
  resp_body : option A
}.

Definition respond {A : Type} (success : Z) (o : Outcome A) : Response A :=
  match o with
  | Return a => mkResponse success [] (Some a)
  | Raise e => mkResponse (status_code e) (headers e) None
  | Uncaught _ => mkResponse HTTP_500_INTERNAL_SERVER_ERROR [] None
  end.

End http.

(** ** [schemas.py] *)

Module schemas.

Module ContactBase.
Record t : Type := mk {
  first_name : string;
  last_name : string;
  email : string;
  phone_number : option string;
  birthday : option Z;
  additional_info : option string
}.
End ContactBase.

(** [class ContactCreate(ContactBase): pass] *)
Module ContactCreate.
Definition t : Type := ContactBase.t.
End ContactCreate.

Module UserCreate.
Record t : Type := mk {
  email : string;
  password : string
}.
End UserCreate.

Module Token.
Record t (Tok : Type) : Type := mk {
  access_token : Tok;
  refresh_token : Tok;
  token_type : string
}.
End Token.

Module TokenData.
Record t : Type := mk {
  email : option string
}.
End TokenData.

End schemas.

(** ** The rows of the two tables

    Modelled from the spec: [models.py] is not among the sources.  The
    columns are those of section 3 of the specification (User: identifier,
    email, password hash, active flag; Contact: identifier, names, email,
    optional phone, birthday and notes, owning user reference), under the
    attribute names that [main.py] and [schemas.py] use. *)

Module models.

Module User.
Record t : Type := mk {
  id : Z;
  email : string;
  hashed_password : string;
  is_active : bool
}.
End User.

Module Contact.
Record t : Type := mk {
  id : Z;
  first_name : string;
  last_name : string;
  email : string;
  phone_number : option string;
  birthday : option Z;
  additional_info : option string;
  owner_id : Z
}.
End Contact.

End models.

(** ** The JWT library ([jose.jwt])

    A token is modelled by what its text parses to: a JWS with the
    algorithm named in its header, its claims and its signature, or a text
    that is not a JWS.  The keyed signature primitive is a parameter, and so
    is Python's [int] on a string.  [jwt.decode] is modelled as [main.py]
    calls it: with the default options and without audience, issuer, subject
    or access token. *)

Module jwt.

Class Signer : Type := {
  sign : string -> string -> Dict -> string
}.

(** Python's [int(s)] for a string [s]; [None] where it raises
    [ValueError]. *)
Class Builtins : Type := {
  int_of_str : string -> option Z
}.

Inductive Token : Type :=
| Jws (alg : string) (claims : Dict) (signature : string)
| Malformed (raw : string).

(** [JWTError] and the subclasses that [jwt.decode] raises. *)
Inductive JWTError : Type :=
| NotAToken
| AlgorithmNotAllowed
| SignatureVerificationFailed
| ExpiredSignatureError
| JWTClaimsError.

Section Jwt.
Context {signer : Signer} {builtins : Builtins}.

Definition encode (claims : Dict) (key : string) (algorithm : string) : Token :=
  Jws algorithm claims (sign key algorithm claims).

(** [int(claims[k])] for a claim value. *)
Definition int_of_claim (v : JValue) : option Z :=
  match v with
  | JInt z => Some z
  | JStr s => int_of_str s
  end.

(** [_validate_iat]: a present [iat] must convert to an integer. *)
Definition validate_iat (claims : Dict) : option JWTError :=
  match dict_get "iat" claims with
  | None => None
  | Some v =>
      match int_of_claim v with
      | Some _ => None
      | None => Some JWTClaimsError
      end
  end.

(** [_validate_nbf]: a present [nbf] must convert to an integer and must
    not lie after the current time. *)
Definition validate_nbf (now : Z) (claims : Dict) : option JWTError :=
  match dict_get "nbf" claims with
  | None => None
  | Some v =>
      match int_of_claim v with
      | Some nbf => if now <? nbf then Some JWTClaimsError else None
      | None => Some JWTClaimsError
      end
  end.

(** [_validate_exp]: an absent [exp] is accepted; a present one must
    convert to an integer and must not lie before the current time. *)
Definition validate_exp (now : Z) (claims : Dict) : option JWTError :=
  match dict_get "exp" claims with
  | None => None
  | Some v =>
      match int_of_claim v with
      | Some exp => if exp <? now then Some ExpiredSignatureError else None
      | None => Some JWTClaimsError
      end
  end.

(** [_validate_aud] with [audience=None]: a present [aud], whether one
    string or not, does not contain [None]. *)
Definition validate_aud (claims : Dict) : option JWTError :=
  match dict_get "aud" claims with
  | None => None
  | Some _ => Some JWTClaimsError
  end.

(** [_validate_sub]: an absent [sub] is accepted; a present one must be a
    string. *)
Definition validate_sub (claims : Dict) : option JWTError :=
  match dict_get "sub" claims with
  | None => None
  | Some (JStr _) => None
  | Some (JInt _) => Some JWTClaimsError
  end.

(** [_validate_jti]: a present [jti] must be a string. *)
Definition validate_jti (claims : Dict) : option JWTError :=
  match dict_get "jti" claims with
  | None => None
  | Some (JStr _) => None
  | Some (JInt _) => Some JWTClaimsError
  end.

(** [_validate_at_hash] with [access_token=None]: a present [at_hash] has
    nothing to be compared against. *)
Definition validate_at_hash (claims : Dict) : option JWTError :=
  match dict_get "at_hash" claims with
  | None => None
  | Some _ => Some JWTClaimsError
  end.

(** The first of the checks that raises. *)
Fixpoint first_error (checks : list (option JWTError)) : option JWTError :=
  match checks with
  | [] => None
  | Some err :: _ => Some err
  | None :: rest => first_error rest
  end.

(** [_validate_claims] under the default options, in the order of the
    library; [_validate_iss] checks nothing when no issuer is given. *)
Definition validate_claims (now : Z) (claims : Dict) : option JWTError :=
  first_error
    [validate_iat claims; validate_nbf now claims; validate_exp now claims;
     validate_aud claims; validate_sub claims; validate_jti claims;
     validate_at_hash claims].

Definition signature_ok (key : string) (alg : string) (claims : Dict)
  (signature : string) : bool :=
  String.eqb signature (sign key alg claims).

(** [jwt.decode(token, key, algorithms=...)] at time [now]. *)
Definition decode (now : Z) (token : Token) (key : string)
  (algorithms : list string) : Dict + JWTError :=
  match token with
  | Malformed _ => inr NotAToken
  | Jws alg claims signature =>
      if negb (existsb (String.eqb alg) algorithms) then inr AlgorithmNotAllowed
      else if negb (signature_ok key alg claims signature)
      then inr SignatureVerificationFailed
      else match validate_claims now claims with
           | Some err => inr err
           | None => inl claims
           end
  end.

End Jwt.
End jwt.

(** ** The token issuer ([auth])

    [main.py] reads three constants of [auth] and calls its two issuing
    functions; [auth.py] is not among the sources.  The handlers see it
    through this interface. *)

Module auth.

Class Auth : Type := {
  SECRET_KEY : string;
  ALGORITHM : string;
  ACCESS_TOKEN_EXPIRE_MINUTES : Z;
  create_access_token : Z -> Dict -> Z -> jwt.Token;
  create_refresh_token : Z -> Dict -> jwt.Token
}.

(** [timedelta(minutes=m)], in seconds. *)
Definition timedelta_minutes (m : Z) : Z := 60 * m.

(** [timedelta(days=d)], in seconds. *)
Definition timedelta_days (d : Z) : Z := 86400 * d.

Section Issuer.
Context {signer : jwt.Signer}.
Variables (secret_key algorithm : string).
Variables (access_minutes refresh_days : Z).

(** Modelled from the spec: the body of [auth.create_access_token] is
    missing.  Section 3: a token is "a signed claim set {subject=email,
    expiry, type=access|refresh}"; section 4.2: [issue_access(subject, ttl)],
    "tokens are signed with a server secret".  The claims are the caller's
    data, the expiry [ttl] after the time of issue, and the type. *)
Definition issue_access (now : Z) (data : Dict) (expires_delta : Z) : jwt.Token :=
  let to_encode :=
    dict_update "type" (JStr "access")
      (dict_update "exp" (JInt (now + expires_delta)) data) in
  jwt.encode to_encode secret_key algorithm.

(** Modelled from the spec: the body of [auth.create_refresh_token] is
    missing.  Section 4.2: [issue_refresh(subject)]; glossary: a refresh
    token is a "longer-lived credential".  Its lifetime is a constant of
    the issuer. *)
Definition issue_refresh (now : Z) (data : Dict) : jwt.Token :=
  let to_encode :=
    dict_update "type" (JStr "refresh")
      (dict_update "exp" (JInt (now + timedelta_days refresh_days)) data) in
  jwt.encode to_encode secret_key algorithm.

Definition issuer : Auth := {|
  SECRET_KEY := secret_key;
  ALGORITHM := algorithm;
  ACCESS_TOKEN_EXPIRE_MINUTES := access_minutes;
  create_access_token := issue_access;
  create_refresh_token := issue_refresh
|}.

End Issuer.
End auth.

(** ** The store operations ([crud])

    [crud.py] is not among the sources: this class lists the functions that
    [main.py] calls, each taking the store and, when it writes, returning
    the store it leaves.  [authenticate_user] answers [None] where the
    Python function answers a false value. *)

Module crud.

Class Crud (DB : Type) : Type := {
  get_user_by_email : DB -> string -> option models.User.t;
  create_user : DB -> schemas.UserCreate.t -> DB * models.User.t;
  authenticate_user : DB -> string -> string -> option models.User.t;
  get_contacts : DB -> Z -> Z -> list models.Contact.t;
  create_contact :
    DB -> schemas.ContactCreate.t -> Z -> DB * models.Contact.t;
  get_contact : DB -> Z -> option models.Contact.t;
  update_contact :
    DB -> schemas.ContactCreate.t -> Z -> DB * option models.Contact.t;
  delete_contact : DB -> Z -> DB * option models.Contact.t;
  search_contacts : DB -> string -> list models.Contact.t;
  get_upcoming_birthdays : Z -> DB -> list models.Contact.t
}.

End crud.

(** ** [main.py] *)

Module main.
Import http.

(** [OAuth2PasswordRequestForm] *)
Record OAuth2PasswordRequestForm : Type := mkForm {
  username : string;
  password : string
}.

Definition bearer_challenge : list (string * string) :=
  [("WWW-Authenticate", "Bearer")%string].

(** [oauth2_scheme = OAuth2PasswordBearer(tokenUrl="token")]: the bearer
    token of the [Authorization] header; a request without one is refused
    by the framework. *)
Definition oauth2_scheme (authorization : option jwt.Token) : Outcome jwt.Token :=
  match authorization with
  | Some token => Return token
  | None =>
      Raise (mkHTTPException HTTP_401_UNAUTHORIZED "Not authenticated"
               bearer_challenge)
  end.

Section Handlers.
Context {DB : Type} {store : crud.Crud DB}.
Context {signer : jwt.Signer} {builtins : jwt.Builtins} {issuer : auth.Auth}.

Definition credentials_exception : HTTPException :=
  mkHTTPException HTTP_401_UNAUTHORIZED "Could not validate credentials"
    bearer_challenge.

(** [get_current_user]: lines 20-37.  [raise credentials_exception] inside
    the [try] is an [HTTPException], which [except JWTError] lets through.
    [schemas.TokenData(email=email)] validates that [email] is a string and
    stores it; it raises pydantic's [ValidationError] otherwise. *)
Definition get_current_user (now : Z) (db : DB) (token : jwt.Token)
  : Outcome models.User.t :=
  match jwt.decode now token auth.SECRET_KEY [auth.ALGORITHM] with
  | inr _ => Raise credentials_exception
  | inl payload =>
      match dict_get "sub" payload with
      | None => Raise credentials_exception
      | Some (JInt _) => Uncaught "ValidationError"
      | Some (JStr email) =>
          let token_data := schemas.TokenData.mk (Some email) in
          match schemas.TokenData.email token_data with
          | None => Uncaught "ValidationError"
          | Some token_email =>
              match crud.get_user_by_email db token_email with
              | None => Raise credentials_exception
              | Some user => Return user
              end
          end
      end
  end.

(** [create_user]: lines 40-45. *)
Definition create_user (user : schemas.UserCreate.t) (db : DB)
  : DB * Outcome models.User.t :=
  match crud.get_user_by_email db (schemas.UserCreate.email user) with
  | Some _ => (db, Raise (mkHTTPException 409 "Email already registered" []))
  | None =>
      let (db', created) := crud.create_user db user in
      (db', Return created)
  end.

(** [login_for_access_token]: lines 48-60. *)
Definition login_for_access_token (now : Z)
  (form_data : OAuth2PasswordRequestForm) (db : DB)
  : Outcome (schemas.Token.t jwt.Token) :=
  match crud.authenticate_user db (username form_data) (password form_data) with
  | None =>
      Raise (mkHTTPException HTTP_401_UNAUTHORIZED "Incorrect email or password"
               bearer_challenge)
  | Some user =>
      let access_token_expires :=
        auth.timedelta_minutes auth.ACCESS_TOKEN_EXPIRE_MINUTES in
      let access_token :=
        auth.create_access_token now
          [("sub"%string, JStr (models.User.email user))] access_token_expires in
      let refresh_token :=
        auth.create_refresh_token now
          [("sub"%string, JStr (models.User.email user))] in
      Return (schemas.Token.mk access_token refresh_token "bearer")
  end.

Definition owned_by (current_user : models.User.t) (contact : models.Contact.t)
  : bool :=
  models.Contact.owner_id contact =? models.User.id current_user.

(** [read_contacts]: lines 63-66. *)
Definition read_contacts (skip limit : Z) (db : DB)
  (current_user : models.User.t) : list models.Contact.t :=
  let contacts := crud.get_contacts db skip limit in
  filter (owned_by current_user) contacts.

(** [create_contact]: lines 69-71. *)
Definition create_contact (contact : schemas.ContactCreate.t) (db : DB)
  (current_user : models.User.t) : DB * models.Contact.t :=
  crud.create_contact db contact (models.User.id current_user).

(** [db_contact is None or db_contact.owner_id != current_user.id] *)
Definition refuses (current_user : models.User.t)
  (db_contact : option models.Contact.t) : bool :=
  match db_contact with
  | None => true
  | Some c => negb (owned_by current_user c)
  end.

(** [update_contact]: lines 74-79. *)
Definition update_contact (contact_id : Z) (contact : schemas.ContactCreate.t)
  (db : DB) (current_user : models.User.t)
  : DB * Outcome (option models.Contact.t) :=
  let db_contact := crud.get_contact db contact_id in
  if refuses current_user db_contact
  then (db, Raise (mkHTTPException 404
          "Contact not found or not authorized to update this contact" []))
  else
    let (db', updated) := crud.update_contact db contact contact_id in
    (db', Return updated).

(** [delete_contact]: lines 82-88. *)
Definition delete_contact (contact_id : Z) (db : DB)
  (current_user : models.User.t) : DB * Outcome Dict :=
  let db_contact := crud.get_contact db contact_id in
  if refuses current_user db_contact
  then (db, Raise (mkHTTPException 404
          "Contact not found or not authorized to delete this contact" []))
  else
    let (db', _) := crud.delete_contact db contact_id in
    (db', Return [("message"%string, JStr "Contact deleted successfully")]).

(** [search_contacts]: lines 91-94. *)
Definition search_contacts (query : string) (db : DB)
  (current_user : models.User.t) : list models.Contact.t :=
  let contacts := crud.search_contacts db query in
  filter (owned_by current_user) contacts.

(** [upcoming_birthdays]: lines 97-100. *)
Definition upcoming_birthdays (now : Z) (db : DB)
  (current_user : models.User.t) : list models.Contact.t :=
  let contacts := crud.get_upcoming_birthdays now db in
  filter (owned_by current_user) contacts.

(** *** The routes

    A route runs its dependencies, then the handler, and answers with the
    status of its decorator (200 when the decorator names none).  The
    arguments are the body, form and query values that the framework has
    validated; a request that fails validation is answered by the framework
    before the handler and is not represented.
    [Depends(get_current_user)] resolves the bearer token of the request
    before the handler is called. *)

Definition current_user_dependency (now : Z) (db : DB)
  (authorization : option jwt.Token) : Outcome models.User.t :=
  match oauth2_scheme authorization with
  | Return token => get_current_user now db token
  | Raise e => Raise e
  | Uncaught exc => Uncaught exc
  end.

Definition protected {A : Type} (success : Z) (now : Z) (db : DB)
  (authorization : option jwt.Token)
  (handler : models.User.t -> DB * Outcome A) : DB * Response A :=
  match current_user_dependency now db authorization with
  | Return current_user =>
      let (db', o) := handler current_user in (db', respond success o)
  | Raise e => (db, respond success (Raise e))
  | Uncaught exc => (db, respond success (Uncaught exc))
  end.

Definition POST_users (user : schemas.UserCreate.t) (db : DB)
  : DB * Response models.User.t :=
  let (db', o) := create_user user db in (db', respond HTTP_201_CREATED o).

Definition POST_token (now : Z) (form_data : OAuth2PasswordRequestForm)
  (db : DB) : Response (schemas.Token.t jwt.Token) :=
  respond HTTP_200_OK (login_for_access_token now form_data db).

Definition GET_contacts (now : Z) (authorization : option jwt.Token)
  (skip limit : Z) (db : DB) : DB * Response (list models.Contact.t) :=
  protected HTTP_200_OK now db authorization
    (fun current_user => (db, Return (read_contacts skip limit db current_user))).

Definition POST_contacts (now : Z) (authorization : option jwt.Token)
  (contact : schemas.ContactCreate.t) (db : DB)
  : DB * Response models.Contact.t :=
  protected HTTP_201_CREATED now db authorization
    (fun current_user =>
       let (db', created) := create_contact contact db current_user in
       (db', Return created)).

Definition PUT_contact (now : Z) (authorization : option jwt.Token)
  (contact_id : Z) (contact : schemas.ContactCreate.t) (db : DB)
  : DB * Response (option models.Contact.t) :=
  protected HTTP_200_OK now db authorization
    (update_contact contact_id contact db).

Definition DELETE_contact (now : Z) (authorization : option jwt.Token)
  (contact_id : Z) (db : DB) : DB * Response Dict :=
  protected HTTP_204_NO_CONTENT now db authorization
    (delete_contact contact_id db).

Definition GET_contacts_search (now : Z) (authorization : option jwt.Token)
  (query : string) (db : DB) : DB * Response (list models.Contact.t) :=
  protected HTTP_200_OK now db authorization
    (fun current_user => (db, Return (search_contacts query db current_user))).

Definition GET_contacts_upcoming_birthdays (now : Z)
  (authorization : option jwt.Token) (db : DB)
  : DB * Response (list models.Contact.t) :=
  protected HTTP_200_OK now db authorization
    (fun current_user => (db, Return (upcoming_birthdays now db current_user))).

End Handlers.
End main.

(** ** A list-backed store

    Modelled from the spec: [crud.py] and [database.py] are not among the
    sources.  Section 1 describes "per-user CRUD plus search/filter over a
    contacts table" made of "straightforward per-row database operations";
    section 3 gives the two tables; section 4.1 gives the credential
    verifier [hash(password)] and [verify(password, hash)].  The tables are
    lists of rows in insertion order.  Looking a row up by a key finds the
    first row with that key.  A page is cut out of the table by skipping
    [skip] rows and keeping [limit] rows.  What the database answers to a
    negative limit, and what rows it skips for a negative offset, are
    parameters, as are the password hash, the text match of the search and
    the seven-day birthday window. *)

Module table.
Import models.

Record DB : Type := mkDB {
  users : list User.t;
  contacts : list Contact.t
}.

Definition empty : DB := mkDB [] [].

(** The identifier given to the next row of a table. *)
Definition next_id (ids : list Z) : Z := 1 + fold_right Z.max 0 ids.

Definition has_id (contact_id : Z) (c : Contact.t) : bool :=
  Contact.id c =? contact_id.

Definition has_email (email : string) (u : User.t) : bool :=
  String.eqb (User.email u) email.

(** Replaces the first row that satisfies [p]. *)
Fixpoint replace_first {A : Type} (p : A -> bool) (new : A) (l : list A)
  : list A :=
  match l with
  | [] => []
  | x :: rest => if p x then new :: rest else x :: replace_first p new rest
  end.

(** Removes the first row that satisfies [p]. *)
Fixpoint remove_first {A : Type} (p : A -> bool) (l : list A) : list A :=
  match l with
  | [] => []
  | x :: rest => if p x then rest else x :: remove_first p rest
  end.

Definition contact_row (id : Z) (c : schemas.ContactCreate.t) (owner_id : Z)
  : Contact.t :=
  Contact.mk id
    (schemas.ContactBase.first_name c) (schemas.ContactBase.last_name c)
    (schemas.ContactBase.email c) (schemas.ContactBase.phone_number c)
    (schemas.ContactBase.birthday c) (schemas.ContactBase.additional_info c)
    owner_id.

Section Table.
Variable get_password_hash : string -> string.
Variable verify_password : string -> string -> bool.
Variable matches : string -> Contact.t -> bool.
Variable birthday_within_week : Z -> Contact.t -> bool.
Variable negative_limit_page : Z -> Z -> list Contact.t -> list Contact.t.
Variable negative_offset : Z -> list Contact.t -> list Contact.t.

Definition get_user_by_email (db : DB) (email : string) : option User.t :=
  find (has_email email) (users db).

Definition create_user (db : DB) (user : schemas.UserCreate.t) : DB * User.t :=
  let db_user :=
    User.mk (next_id (map User.id (users db)))
      (schemas.UserCreate.email user)
      (get_password_hash (schemas.UserCreate.password user)) true in
  (mkDB (users db ++ [db_user]) (contacts db), db_user).

Definition authenticate_user (db : DB) (email password : string)
  : option User.t :=
  match get_user_by_email db email with
  | None => None
  | Some user =>
      if verify_password password (User.hashed_password user)
      then Some user else None
  end.

(** The rows that are left after the offset. *)
Definition offset (skip : Z) (rows : list Contact.t) : list Contact.t :=
  if skip <? 0 then negative_offset skip rows
  else skipn (Z.to_nat skip) rows.

Definition get_contacts (db : DB) (skip limit : Z) : list Contact.t :=
  if limit <? 0 then negative_limit_page skip limit (contacts db)
  else firstn (Z.to_nat limit) (offset skip (contacts db)).

Definition create_contact (db : DB) (contact : schemas.ContactCreate.t)
  (user_id : Z) : DB * Contact.t :=
  let db_contact :=
    contact_row (next_id (map Contact.id (contacts db))) contact user_id in
  (mkDB (users db) (contacts db ++ [db_contact]), db_contact).

Definition get_contact (db : DB) (contact_id : Z) : option Contact.t :=
  find (has_id contact_id) (contacts db).

Definition update_contact (db : DB) (contact : schemas.ContactCreate.t)
  (contact_id : Z) : DB * option Contact.t :=
  match get_contact db contact_id with
  | None => (db, None)
  | Some db_contact =>
      let updated :=
        contact_row (Contact.id db_contact) contact
          (Contact.owner_id db_contact) in
      (mkDB (users db)
         (replace_first (has_id contact_id) updated (contacts db)),
       Some updated)
  end.

Definition delete_contact (db : DB) (contact_id : Z) : DB * option Contact.t :=
  match get_contact db contact_id with
  | None => (db, None)
  | Some db_contact =>
      (mkDB (users db) (remove_first (has_id contact_id) (contacts db)),
       Some db_contact)
  end.

Definition search_contacts (db : DB) (query : string) : list Contact.t :=
  filter (matches query) (contacts db).

Definition get_upcoming_birthdays (now : Z) (db : DB) : list Contact.t :=
  filter (birthday_within_week now) (contacts db).

Definition crud : crud.Crud DB := {|
  crud.get_user_by_email := get_user_by_email;
  crud.create_user := create_user;
  crud.authenticate_user := authenticate_user;
  crud.get_contacts := get_contacts;
  crud.create_contact := create_contact;
  crud.get_contact := get_contact;
  crud.update_contact := update_contact;
  crud.delete_contact := delete_contact;
  crud.search_contacts := search_contacts;
  crud.get_upcoming_birthdays := get_upcoming_birthdays
|}.

End Table.
End table.

(** ** A concrete deployment, for evaluating the handlers

    A signer that writes out what it signs, a configuration of the issuer,
    and a store with two users and four contacts. *)

Module demo.
Import models.

Fixpoint render (claims : Dict) : string :=
  match claims with
  | [] => ""
  | (k, JStr s) :: rest => (k ++ "=" ++ s ++ ";" ++ render rest)%string
  | (k, JInt z) :: rest =>
      (k ++ "#" ++ NilZero.string_of_int (Z.to_int z) ++ ";" ++ render rest)%string
  end.

Definition signer : jwt.Signer :=
  {| jwt.sign := fun key alg claims =>
       (key ++ "|" ++ alg ++ "|" ++ render claims)%string |}.

(** Decimal numerals. *)
Definition builtins : jwt.Builtins :=
  {| jwt.int_of_str := fun s =>
       option_map Z.of_int (NilZero.int_of_string s) |}.

Definition issuer : auth.Auth :=
  @auth.issuer signer "server-secret" "HS256" 30 7.

Definition hash (password : string) : string := ("$" ++ password)%string.

Definition verify (password hashed : string) : bool :=
  String.eqb hashed (hash password).

Definition matches (query : string) (c : Contact.t) : bool :=
  String.eqb (Contact.first_name c) query.

Definition birthday_within_week (now : Z) (c : Contact.t) : bool :=
  match Contact.birthday c with
  | Some day => (now <=? day) && (day <=? now + 7 * 86400)
  | None => false
  end.

(** This database answers a negative limit with no rows and skips no row
    for a negative offset. *)
Definition negative_limit_page (skip limit : Z) (rows : list Contact.t)
  : list Contact.t := [].

Definition negative_offset (skip : Z) (rows : list Contact.t)
  : list Contact.t := rows.

Definition store : crud.Crud table.DB :=
  table.crud hash verify matches birthday_within_week negative_limit_page
    negative_offset.

Definition alice : User.t := User.mk 1 "alice@example.com" (hash "wonderland") true.
Definition bob : User.t := User.mk 2 "bob@example.com" (hash "builder") true.

Definition contact (id : Z) (name : string) (owner : Z) : Contact.t :=
  Contact.mk id name "Doe" (name ++ "@example.com") None (Some 100) None owner.

Definition db : table.DB :=
  table.mkDB [alice; bob]
    [contact 1 "ann" 2; contact 2 "ben" 2; contact 3 "cat" 1; contact 4 "dan" 1].

Definition new_contact : schemas.ContactCreate.t :=
  schemas.ContactBase.mk "eve" "Roe" "eve@example.com" None None None.

(** The access token and the refresh token of a login of alice at time
    1000: they expire at 2800 and at 605800. *)
Definition alice_access_token : jwt.Token :=
  @auth.create_access_token issuer 1000
    [("sub"%string, JStr "alice@example.com")] (auth.timedelta_minutes 30).

Definition alice_refresh_token : jwt.Token :=
  @auth.create_refresh_token issuer 1000
    [("sub"%string, JStr "alice@example.com")].

(** The access token with bob's email written over alice's, under the
    signature of the original. *)
Definition forged_token : jwt.Token :=
  match alice_access_token with
  | jwt.Jws alg claims signature =>
      jwt.Jws alg (dict_update "sub" (JStr "bob@example.com") claims) signature
  | jwt.Malformed raw => jwt.Malformed raw
  end.

(** A token for alice that the server signed without an expiry, and one
    that it signed under another algorithm. *)
Definition alice_token_without_expiry : jwt.Token :=
  @jwt.encode signer [("sub"%string, JStr "alice@example.com")]
    "server-secret" "HS256".

Definition alice_token_other_algorithm : jwt.Token :=
  @jwt.encode signer [("sub"%string, JStr "alice@example.com")]
    "server-secret" "HS512".

(** A token for alice that the server signed with an audience. *)
Definition alice_token_with_audience : jwt.Token :=
  @jwt.encode signer
    [("sub"%string, JStr "alice@example.com");
     ("aud"%string, JStr "contacts")]
    "server-secret" "HS256".


(** The store without its contacts. *)
Definition db_users_only : table.DB := table.mkDB (table.users db) [].

End demo.

(** ** Vocabulary of the statements *)

Section Vocabulary.
Context {DB : Type} {store : crud.Crud DB}.
Context {signer : jwt.Signer} {builtins : jwt.Builtins} {issuer : auth.Auth}.

(** No contact has the identifier, or the one that has it belongs to
    somebody else than [u]. *)
Definition missing_or_foreign (u : models.User.t) (db : DB) (contact_id : Z)
  : Prop :=
  crud.get_contact db contact_id = None \/
  exists c, crud.get_contact db contact_id = Some c /\
            models.Contact.owner_id c <> models.User.id u.

(** The token carries an expiry that lies before [now]. *)
Definition expired (now : Z) (token : jwt.Token) : bool :=
  match token with
  | jwt.Jws _ claims _ =>
      match dict_get "exp" claims with
      | Some (JInt exp) => exp <? now
      | _ => false
      end
  | jwt.Malformed _ => false
  end.

(** The token is a JWS of the server's algorithm whose signature is the
    server's signature of its header and claims. *)
Definition verifies (token : jwt.Token) : bool :=
  match token with
  | jwt.Jws alg claims signature =>
      String.eqb alg auth.ALGORITHM &&
      String.eqb signature (jwt.sign auth.SECRET_KEY alg claims)
  | jwt.Malformed _ => false
  end.

(** The text was altered after signing: it no longer parses, or its
    signature is not the server's signature of its header and claims. *)
Definition tampered (token : jwt.Token) : bool :=
  match token with
  | jwt.Jws alg claims signature =>
      negb (String.eqb signature (jwt.sign auth.SECRET_KEY alg claims))
  | jwt.Malformed _ => true
  end.

Definition subject (token : jwt.Token) : option JValue :=
  match token with
  | jwt.Jws _ claims _ => dict_get "sub" claims
  | jwt.Malformed _ => None
  end.

(** The token with its type claim set to [ty], signed again by the server. *)
Definition retyped (ty : JValue) (token : jwt.Token) : jwt.Token :=
  match token with
  | jwt.Jws alg claims _ =>
      jwt.encode (dict_update "type" ty claims) auth.SECRET_KEY alg
  | jwt.Malformed raw => jwt.Malformed raw
  end.

(** One request that writes to the store, made by some caller: the store
    before and the store after. *)
Inductive request_step : DB -> DB -> Prop :=
| step_create_user (user : schemas.UserCreate.t) (db : DB) :
    request_step db (fst (main.create_user user db))
| step_create_contact (contact : schemas.ContactCreate.t) (db : DB)
    (current_user : models.User.t) :
    request_step db (fst (main.create_contact contact db current_user))
| step_update_contact (contact_id : Z) (contact : schemas.ContactCreate.t)
    (db : DB) (current_user : models.User.t) :
    request_step db (fst (main.update_contact contact_id contact db current_user))
| step_delete_contact (contact_id : Z) (db : DB)
    (current_user : models.User.t) :
    request_step db (fst (main.delete_contact contact_id db current_user)).

(** Any number of such requests, one after the other. *)
Inductive requests : DB -> DB -> Prop :=
| requests_none (db : DB) : requests db db
| requests_more (db db' db'' : DB) :
    requests db db' -> request_step db' db'' -> requests db db''.

End Vocabulary.

(** The contacts of the users other than [u], in table order. *)
Definition foreign_contacts (u : models.User.t) (db : table.DB)
  : list models.Contact.t :=
  filter (fun c => negb (main.owned_by u c)) (table.contacts db).

(** ** What the handlers expect of a store *)

Section StoreContracts.
Context {DB : Type} {store : crud.Crud DB}.


(** The store finds, under its identifier, the contact that it has just
    created, and the contact carries the owner that was given. *)
Definition finds_created_contact (db : DB) (contact : schemas.ContactCreate.t)
  (user_id : Z) : Prop :=
  crud.get_contact (fst (crud.create_contact db contact user_id))
    (models.Contact.id (snd (crud.create_contact db contact user_id))) =
    Some (snd (crud.create_contact db contact user_id)) /\
  models.Contact.owner_id (snd (crud.create_contact db contact user_id)) =
    user_id.

End StoreContracts.

(** * Properties *)

Import http.

(** ** Dictionaries *)

Lemma dict_get_update_same (k : string) (v : JValue) (d : Dict) :
  dict_get k (dict_update k v d) = Some v.
Proof.
  induction d as [|[k' v'] rest IH]; simpl.
  - now rewrite String.eqb_refl.
  - destruct (String.eqb k k') eqn:E; simpl; rewrite E; auto.
Qed.

Lemma dict_get_update_other (k k' : string) (v : JValue) (d : Dict) :
  k <> k' -> dict_get k (dict_update k' v d) = dict_get k d.
Proof.
  intros Hne. induction d as [|[k0 v0] rest IH]; simpl.
  - destruct (String.eqb_spec k k'); [contradiction | reflexivity].
  - destruct (String.eqb_spec k' k0) as [->|Hk0]; simpl.
    + destruct (String.eqb_spec k k0); [contradiction | reflexivity].
    + destruct (String.eqb k k0); [reflexivity | exact IH].
Qed.

(** ** The JWT library *)

Section JwtFacts.
Context {signer : jwt.Signer} {builtins : jwt.Builtins}.

Lemma signature_ok_encode (key alg : string) (claims : Dict) :
  jwt.signature_ok key alg claims (jwt.sign key alg claims) = true.
Proof. unfold jwt.signature_ok. apply String.eqb_refl. Qed.

Lemma first_error_none (checks : list (option jwt.JWTError)) :
  jwt.first_error checks = None <-> Forall (fun c => c = None) checks.
Proof.
  induction checks as [|[err |] rest IH]; simpl.
  - split; auto.
  - split; [discriminate | intros H; inversion H; discriminate].
  - rewrite IH. split; [now constructor | intros H; now inversion H].
Qed.

(** The claims pass exactly when each of the seven checks passes. *)
Lemma validate_claims_none (now : Z) (claims : Dict) :
  jwt.validate_claims now claims = None <->
  jwt.validate_iat claims = None /\
  jwt.validate_nbf now claims = None /\
  jwt.validate_exp now claims = None /\
  jwt.validate_aud claims = None /\
  jwt.validate_sub claims = None /\
  jwt.validate_jti claims = None /\
  jwt.validate_at_hash claims = None.
Proof.
  unfold jwt.validate_claims. rewrite first_error_none. split.
  - intros H. repeat (inversion H as [|? ? ? H']; subst; clear H;
                      rename H' into H; split; [assumption |]).
    inversion H; subst. assumption.
  - intros (H1 & H2 & H3 & H4 & H5 & H6 & H7).
    repeat (constructor; [assumption |]). constructor.
Qed.

(** What a successful [jwt.decode] tells about the token. *)
Lemma decode_inl (now : Z) (token : jwt.Token) (key : string)
  (algorithms : list string) (payload : Dict) :
  jwt.decode now token key algorithms = inl payload ->
  exists alg signature,
    token = jwt.Jws alg payload signature /\
    existsb (String.eqb alg) algorithms = true /\
    jwt.signature_ok key alg payload signature = true /\
    jwt.validate_claims now payload = None.
Proof.
  destruct token as [alg claims signature | raw]; simpl; [| discriminate].
  destruct (existsb (String.eqb alg) algorithms) eqn:Halg; simpl;
    [| discriminate].
  destruct (jwt.signature_ok key alg claims signature) eqn:Hsig; simpl;
    [| discriminate].
  destruct (jwt.validate_claims now claims) eqn:Hclaims; [discriminate |].
  intros [= <-]. now exists alg, signature.
Qed.

(** A token of an allowed algorithm, signed with the key, whose claims
    pass, decodes to its claims. *)
Lemma decode_signed (now : Z) (key alg : string) (claims : Dict) :
  jwt.validate_claims now claims = None ->
  jwt.decode now (jwt.encode claims key alg) key [alg] = inl claims.
Proof.
  intros Hclaims. unfold jwt.encode. simpl.
  rewrite String.eqb_refl, signature_ok_encode. simpl.
  now rewrite Hclaims.
Qed.

(** After a successful decode the subject is absent or a string. *)
Lemma decode_sub_string (now : Z) (token : jwt.Token) (key : string)
  (algorithms : list string) (payload : Dict) (z : Z) :
  jwt.decode now token key algorithms = inl payload ->
  dict_get "sub" payload <> Some (JInt z).
Proof.
  intros Hdec Hsub.
  destruct (decode_inl _ _ _ _ Hdec) as (alg & sg & _ & _ & _ & Hv).
  apply validate_claims_none in Hv.
  destruct Hv as (_ & _ & _ & _ & Hv & _).
  unfold jwt.validate_sub in Hv. rewrite Hsub in Hv. discriminate.
Qed.

(** The type claim is none of the claims that the library checks. *)
Lemma validate_claims_retyped (now : Z) (ty : JValue) (claims : Dict) :
  jwt.validate_claims now (dict_update "type" ty claims) =
  jwt.validate_claims now claims.
Proof.
  unfold jwt.validate_claims, jwt.validate_iat, jwt.validate_nbf,
    jwt.validate_exp, jwt.validate_aud, jwt.validate_sub, jwt.validate_jti,
    jwt.validate_at_hash.
  now rewrite !dict_get_update_other by discriminate.
Qed.

(** Of the seven checks only [nbf] and [exp] read the clock: claims that
    pass at two times pass at every time between them. *)
Lemma validate_claims_between (now1 now2 now3 : Z) (claims : Dict) :
  now1 <= now2 <= now3 ->
  jwt.validate_claims now1 claims = None ->
  jwt.validate_claims now3 claims = None ->
  jwt.validate_claims now2 claims = None.
Proof.
  intros Hle H1 H3. apply validate_claims_none in H1, H3.
  destruct H1 as (Hiat & Hnbf & _ & Haud & Hsub & Hjti & Hhash).
  destruct H3 as (_ & _ & Hexp & _).
  apply validate_claims_none. repeat split; try assumption.
  - unfold jwt.validate_nbf in *.
    destruct (dict_get "nbf" claims) as [v |]; [| reflexivity].
    destruct (jwt.int_of_claim v) as [nbf |]; [| discriminate].
    destruct (Z.ltb_spec now1 nbf); [discriminate |].
    destruct (Z.ltb_spec now2 nbf); [lia | reflexivity].
  - unfold jwt.validate_exp in *.
    destruct (dict_get "exp" claims) as [v |]; [| reflexivity].
    destruct (jwt.int_of_claim v) as [exp |]; [| discriminate].
    destruct (Z.ltb_spec exp now3); [discriminate |].
    destruct (Z.ltb_spec exp now2); [lia | reflexivity].
Qed.

(** Claims without expiry that pass at one time pass ever after. *)
Lemma validate_claims_later (now1 now2 : Z) (claims : Dict) :
  now1 <= now2 ->
  dict_get "exp" claims = None ->
  jwt.validate_claims now1 claims = None ->
  jwt.validate_claims now2 claims = None.
Proof.
  intros Hle Hnoexp H1. apply validate_claims_none in H1.
  destruct H1 as (Hiat & Hnbf & _ & Haud & Hsub & Hjti & Hhash).
  apply validate_claims_none. repeat split; try assumption.
  - unfold jwt.validate_nbf in *.
    destruct (dict_get "nbf" claims) as [v |]; [| reflexivity].
    destruct (jwt.int_of_claim v) as [nbf |]; [| discriminate].
    destruct (Z.ltb_spec now1 nbf); [discriminate |].
    destruct (Z.ltb_spec now2 nbf); [lia | reflexivity].
  - unfold jwt.validate_exp. now rewrite Hnoexp.
Qed.

End JwtFacts.

(** ** The handlers, over every store and every issuer *)

Section HandlerFacts.
Context {DB : Type} {store : crud.Crud DB}.
Context {signer : jwt.Signer} {builtins : jwt.Builtins} {issuer : auth.Auth}.

Lemma owned_by_spec (u : models.User.t) (c : models.Contact.t) :
  main.owned_by u c = true <-> models.Contact.owner_id c = models.User.id u.
Proof. unfold main.owned_by. apply Z.eqb_eq. Qed.

Lemma refuses_spec (u : models.User.t) (found : option models.Contact.t) :
  main.refuses u found = true <->
  found = None \/
  exists c, found = Some c /\ models.Contact.owner_id c <> models.User.id u.
Proof.
  destruct found as [c|]; simpl.
  - rewrite negb_true_iff, <- not_true_iff_false, owned_by_spec. split.
    + intros H. right. now exists c.
    + intros [H | (c' & [= <-] & H)]; [discriminate | exact H].
  - split; auto.
Qed.

Lemma refuses_false (u : models.User.t) (found : option models.Contact.t) :
  main.refuses u found = false <->
  exists c, found = Some c /\ models.Contact.owner_id c = models.User.id u.
Proof.
  destruct found as [c|]; simpl.
  - rewrite negb_false_iff, owned_by_spec. split.
    + intros H. now exists c.
    + now intros (c' & [= <-] & H).
  - split; [discriminate | now intros (c & ? & _)].
Qed.

(** Every contact that passes the ownership filter belongs to the caller,
    whatever list the store produced. *)
Lemma filter_owned (u : models.User.t) (l : list models.Contact.t) :
  Forall (fun c => models.Contact.owner_id c = models.User.id u)
    (filter (main.owned_by u) l).
Proof.
  apply Forall_forall. intros c Hin.
  apply filter_In in Hin. now apply owned_by_spec.
Qed.

Lemma update_contact_refused (u : models.User.t) (contact_id : Z)
  (contact : schemas.ContactCreate.t) (db : DB) :
  main.refuses u (crud.get_contact db contact_id) = true ->
  main.update_contact contact_id contact db u =
    (db, Raise (mkHTTPException 404
       "Contact not found or not authorized to update this contact" [])).
Proof. unfold main.update_contact. now intros ->. Qed.

Lemma delete_contact_refused (u : models.User.t) (contact_id : Z) (db : DB) :
  main.refuses u (crud.get_contact db contact_id) = true ->
  main.delete_contact contact_id db u =
    (db, Raise (mkHTTPException 404
       "Contact not found or not authorized to delete this contact" [])).
Proof. unfold main.delete_contact. now intros ->. Qed.

Lemma update_contact_allowed (u : models.User.t) (contact_id : Z)
  (contact : schemas.ContactCreate.t) (db : DB) :
  main.refuses u (crud.get_contact db contact_id) = false ->
  main.update_contact contact_id contact db u =
    (fst (crud.update_contact db contact contact_id),
     Return (snd (crud.update_contact db contact contact_id))).
Proof.
  unfold main.update_contact. intros ->.
  now destruct (crud.update_contact db contact contact_id).
Qed.

Lemma delete_contact_allowed (u : models.User.t) (contact_id : Z) (db : DB) :
  main.refuses u (crud.get_contact db contact_id) = false ->
  main.delete_contact contact_id db u =
    (fst (crud.delete_contact db contact_id),
     Return [("message"%string, JStr "Contact deleted successfully")]).
Proof.
  unfold main.delete_contact. intros ->.
  now destruct (crud.delete_contact db contact_id).
Qed.

End HandlerFacts.

(** ** Owner scoping and the error statuses of the handlers *)

Section HandlerClaims.
Context {DB : Type} {store : crud.Crud DB}.
Context {signer : jwt.Signer} {builtins : jwt.Builtins} {issuer : auth.Auth}.

(** C1.  A contact [c] whose owner is not the caller [u] is never in the
    list that [read_contacts] returns; and when [c] is the contact that the
    store finds under the identifier, [update_contact] and [delete_contact]
    raise their 404 and hand back the store they were given, so that neither
    [crud.update_contact] nor [crud.delete_contact] is called. *)
Theorem foreign_contact_is_out_of_reach (u : models.User.t)
  (c : models.Contact.t) :
  models.Contact.owner_id c <> models.User.id u ->
  (forall skip limit db, ~ In c (main.read_contacts skip limit db u)) /\
  (forall contact_id contact db,
     crud.get_contact db contact_id = Some c ->
     main.update_contact contact_id contact db u =
       (db, Raise (mkHTTPException 404
          "Contact not found or not authorized to update this contact" []))) /\
  (forall contact_id db,
     crud.get_contact db contact_id = Some c ->
     main.delete_contact contact_id db u =
       (db, Raise (mkHTTPException 404
          "Contact not found or not authorized to delete this contact" []))).
Proof.
  intros Hforeign. repeat split.
  - intros skip limit db Hin. unfold main.read_contacts in Hin.
    apply filter_In in Hin. destruct Hin as [_ Hown].
    apply owned_by_spec in Hown. contradiction.
  - intros contact_id contact db Hget.
    apply update_contact_refused, refuses_spec. right. now exists c.
  - intros contact_id db Hget.
    apply delete_contact_refused, refuses_spec. right. now exists c.
Qed.

(** C6.  [update_contact] and [delete_contact] raise an exception of
    status 404 exactly when the store finds no contact under the identifier
    or finds one of another owner; the store they hand back is then the one
    they were given. *)
Theorem not_found_exactly_when_missing_or_foreign (u : models.User.t)
  (contact_id : Z) (contact : schemas.ContactCreate.t) (db : DB) :
  (missing_or_foreign u db contact_id <->
   exists e, snd (main.update_contact contact_id contact db u) = Raise e /\
             status_code e = 404) /\
  (missing_or_foreign u db contact_id <->
   exists e, snd (main.delete_contact contact_id db u) = Raise e /\
             status_code e = 404) /\
  (missing_or_foreign u db contact_id ->
   fst (main.update_contact contact_id contact db u) = db /\
   fst (main.delete_contact contact_id db u) = db).
Proof.
  unfold missing_or_foreign. rewrite <- refuses_spec.
  destruct (main.refuses u (crud.get_contact db contact_id)) eqn:R.
  - rewrite (update_contact_refused _ _ _ _ R).
    rewrite (delete_contact_refused _ _ _ R). simpl.
    repeat split; auto; intros _; eexists; split; reflexivity.
  - rewrite (update_contact_allowed _ _ _ _ R).
    rewrite (delete_contact_allowed _ _ _ R). simpl.
    repeat split; try discriminate; intros (e & He & _); discriminate.
Qed.

(** C7.  Every contact that [search_contacts] or [upcoming_birthdays]
    returns belongs to the caller, for every query, every date and every
    store. *)
Theorem search_and_birthdays_are_owner_scoped (u : models.User.t)
  (query : string) (now : Z) (db : DB) :
  Forall (fun c => models.Contact.owner_id c = models.User.id u)
    (main.search_contacts query db u) /\
  Forall (fun c => models.Contact.owner_id c = models.User.id u)
    (main.upcoming_birthdays now db u).
Proof. split; apply filter_owned. Qed.

(** C5.  When the store already has a user under the email of the
    request, [POST /users/] answers 409 and leaves the store as it was;
    when it has none, the route hands the request to [crud.create_user] and
    answers 201 with the user created. *)
Theorem register_conflict_or_created (user : schemas.UserCreate.t) (db : DB) :
  (forall existing,
     crud.get_user_by_email db (schemas.UserCreate.email user) = Some existing ->
     main.POST_users user db = (db, mkResponse 409 [] None)) /\
  (crud.get_user_by_email db (schemas.UserCreate.email user) = None ->
   main.POST_users user db =
     (fst (crud.create_user db user),
      mkResponse 201 [] (Some (snd (crud.create_user db user))))).
Proof.
  unfold main.POST_users, main.create_user. split.
  - intros existing ->. reflexivity.
  - intros ->. now destruct (crud.create_user db user).
Qed.

(** C8.  With credentials that [crud.authenticate_user] accepts,
    [login_for_access_token] returns an access token and a refresh token,
    both issued for the email of the user, with token type "bearer", and
    the route answers 200; with credentials that it rejects, the handler
    raises status 401 and the response carries no token. *)
Theorem login_issues_both_tokens_or_401 (now : Z)
  (form_data : main.OAuth2PasswordRequestForm) (db : DB) :
  (forall user,
     crud.authenticate_user db (main.username form_data)
       (main.password form_data) = Some user ->
     let data := [("sub"%string, JStr (models.User.email user))] in
     let tokens :=
       schemas.Token.mk
         (auth.create_access_token now data
            (auth.timedelta_minutes auth.ACCESS_TOKEN_EXPIRE_MINUTES))
         (auth.create_refresh_token now data) "bearer" in
     main.login_for_access_token now form_data db = Return tokens /\
     main.POST_token now form_data db = mkResponse 200 [] (Some tokens)) /\
  (crud.authenticate_user db (main.username form_data)
     (main.password form_data) = None ->
   (exists e, main.login_for_access_token now form_data db = Raise e /\
              status_code e = 401) /\
   resp_status (main.POST_token now form_data db) = 401 /\
   resp_body (main.POST_token now form_data db) = None).
Proof.
  unfold main.POST_token, main.login_for_access_token. split.
  - intros user ->. split; reflexivity.
  - intros ->. simpl. split; [eexists; split; reflexivity | split; reflexivity].
Qed.

End HandlerClaims.

(** ** Resolving a bearer token *)

Section TokenClaims.
Context {DB : Type} {store : crud.Crud DB}.
Context {signer : jwt.Signer} {builtins : jwt.Builtins} {issuer : auth.Auth}.

#[local] Abbreviation server_decode now token :=
  (jwt.decode now token auth.SECRET_KEY [auth.ALGORITHM]).

(** The three exits of [get_current_user] that raise, and the one that
    returns.  The [ValidationError] exits are dead: a decoded payload has no
    subject that is not a string. *)
Lemma get_current_user_eq (now : Z) (db : DB) (token : jwt.Token) :
  main.get_current_user now db token =
  match server_decode now token with
  | inr _ => Raise main.credentials_exception
  | inl payload =>
      match dict_get "sub" payload with
      | Some (JStr email) =>
          match crud.get_user_by_email db email with
          | Some user => Return user
          | None => Raise main.credentials_exception
          end
      | _ => Raise main.credentials_exception
      end
  end.
Proof.
  unfold main.get_current_user.
  destruct (server_decode now token) as [payload | err] eqn:Hdec; auto.
  destruct (dict_get "sub" payload) as [[email | z] |] eqn:Hsub; auto.
  exfalso. eapply decode_sub_string; eassumption.
Qed.

Lemma expired_validate_exp (now : Z) (alg : string) (claims : Dict)
  (signature : string) :
  expired now (jwt.Jws alg claims signature) = true ->
  jwt.validate_exp now claims = Some jwt.ExpiredSignatureError.
Proof.
  unfold expired, jwt.validate_exp.
  destruct (dict_get "exp" claims) as [[s | exp] |]; try discriminate.
  simpl. now intros ->.
Qed.

(** An expired or tampered token does not decode. *)
Lemma decode_rejects (now : Z) (token : jwt.Token) :
  expired now token = true \/ tampered token = true ->
  exists err, server_decode now token = inr err.
Proof.
  destruct token as [alg claims signature | raw]; simpl.
  2: { intros _. now exists jwt.NotAToken. }
  destruct (String.eqb alg auth.ALGORITHM || false); simpl;
    [| now eexists].
  unfold jwt.signature_ok.
  destruct (String.eqb signature (jwt.sign auth.SECRET_KEY alg claims));
    simpl; [| now eexists].
  intros [Hexp | Htam]; [| discriminate].
  apply (expired_validate_exp now alg claims signature) in Hexp.
  destruct (jwt.validate_claims now claims) as [err |] eqn:Hclaims;
    [now eexists |].
  apply validate_claims_none in Hclaims.
  destruct Hclaims as (_ & _ & Hok & _). congruence.
Qed.

(** C3.  For a token that has expired, or that was tampered with,
    [jwt.decode] fails, and [get_current_user] raises the exception of
    status 401; it returns no user. *)
Theorem expired_or_tampered_token_is_rejected (now : Z) (db : DB)
  (token : jwt.Token) :
  expired now token = true \/ tampered token = true ->
  (exists err, server_decode now token = inr err) /\
  main.get_current_user now db token = Raise main.credentials_exception /\
  status_code main.credentials_exception = 401 /\
  (forall user, main.get_current_user now db token <> Return user).
Proof.
  intros Hbad. destruct (decode_rejects now token Hbad) as [err Herr].
  assert (Hout : main.get_current_user now db token =
                 Raise main.credentials_exception).
  { rewrite get_current_user_eq, Herr. reflexivity. }
  split; [now exists err |]. split; [exact Hout |]. split; [reflexivity |].
  intros user. rewrite Hout. discriminate.
Qed.

(** C4.  Whatever makes the verification fail - a token that does not
    decode (not a JWS, algorithm, signature, expiry, claims), a payload
    without subject, a subject that is the email of no stored user -
    [get_current_user] raises the one exception of status 401 with the
    header [WWW-Authenticate: Bearer]; it raises nothing else, and it
    returns a user only when the token decodes, the payload has a subject,
    and the store has that user under the subject. *)
Theorem verification_failures_collapse_to_401 (now : Z) (db : DB)
  (token : jwt.Token) :
  (forall err, server_decode now token = inr err ->
     main.get_current_user now db token = Raise main.credentials_exception) /\
  (forall payload, server_decode now token = inl payload ->
     dict_get "sub" payload = None ->
     main.get_current_user now db token = Raise main.credentials_exception) /\
  (forall payload email, server_decode now token = inl payload ->
     dict_get "sub" payload = Some (JStr email) ->
     crud.get_user_by_email db email = None ->
     main.get_current_user now db token = Raise main.credentials_exception) /\
  (forall user, main.get_current_user now db token = Return user <->
     exists payload email,
       server_decode now token = inl payload /\
       dict_get "sub" payload = Some (JStr email) /\
       crud.get_user_by_email db email = Some user) /\
  (main.get_current_user now db token = Raise main.credentials_exception \/
   exists user, main.get_current_user now db token = Return user) /\
  status_code main.credentials_exception = 401 /\
  headers main.credentials_exception = [("WWW-Authenticate", "Bearer")%string].
Proof.
  rewrite get_current_user_eq.
  destruct (server_decode now token) as [payload | err].
  - destruct (dict_get "sub" payload) as [[email | z] |] eqn:Hsub.
    + destruct (crud.get_user_by_email db email) as [found |] eqn:Hfind.
      * repeat split; try discriminate; try reflexivity.
        -- intros p [= <-]. congruence.
        -- intros p e [= <-]. congruence.
        -- intros [= <-]. now exists payload, email.
        -- intros (p & e & [= <-] & He & Hu). congruence.
        -- right. now exists found.
      * repeat split; try discriminate; try reflexivity; auto.
        intros (p & e & [= <-] & He & Hu). congruence.
    + repeat split; try discriminate; try reflexivity; auto.
      intros (p & e & [= <-] & He & Hu). congruence.
    + repeat split; try discriminate; try reflexivity; auto.
      intros (p & e & [= <-] & He & Hu). congruence.
  - repeat split; try discriminate; try reflexivity; auto.
    intros (p & e & Hp & _). discriminate.
Qed.

End TokenClaims.

(** ** Token types and issued tokens *)

Section TokenTypes.
Context {DB : Type} {store : crud.Crud DB}.
Context {signer : jwt.Signer} {builtins : jwt.Builtins} {issuer : auth.Auth}.

(** What [jwt.decode] accepts in [get_current_user]: a JWS of the
    server's algorithm, with the server's signature of its header and
    claims, whose claims pass the checks of the library at that time. *)
Lemma server_decode_accepts (now : Z) (alg : string) (claims : Dict)
  (signature : string) (payload : Dict) :
  jwt.decode now (jwt.Jws alg claims signature) auth.SECRET_KEY
    [auth.ALGORITHM] = inl payload <->
  payload = claims /\
  verifies (jwt.Jws alg claims signature) = true /\
  jwt.validate_claims now claims = None.
Proof.
  simpl. unfold jwt.signature_ok.
  rewrite orb_false_r.
  destruct (String.eqb alg auth.ALGORITHM); simpl.
  - destruct (String.eqb signature (jwt.sign auth.SECRET_KEY alg claims));
      simpl.
    + destruct (jwt.validate_claims now claims) as [err |].
      * split; [discriminate | now intros (_ & _ & ?)].
      * split; [now intros [= <-] | now intros (-> & _)].
    + split; [discriminate | now intros (_ & ? & _)].
  - split; [discriminate | now intros (_ & ? & _)].
Qed.

(** A token that decodes, with a subject that is a stored email, resolves
    to the user stored under it. *)
Lemma decoded_token_resolves (now : Z) (db : DB) (token : jwt.Token)
  (payload : Dict) (email : string) (user : models.User.t) :
  jwt.decode now token auth.SECRET_KEY [auth.ALGORITHM] = inl payload ->
  dict_get "sub" payload = Some (JStr email) ->
  crud.get_user_by_email db email = Some user ->
  main.get_current_user now db token = Return user.
Proof.
  intros Hdec Hsub Hfind. rewrite get_current_user_eq, Hdec.
  now rewrite Hsub, Hfind.
Qed.

(** A token that decodes still decodes when the server issues it with
    another type claim. *)
Lemma retyped_decodes (now : Z) (ty : JValue) (token : jwt.Token)
  (payload : Dict) :
  jwt.decode now token auth.SECRET_KEY [auth.ALGORITHM] = inl payload ->
  jwt.decode now (retyped ty token) auth.SECRET_KEY [auth.ALGORITHM] =
    inl (dict_update "type" ty payload).
Proof.
  intros Hdec.
  destruct (decode_inl _ _ _ _ Hdec)
    as (alg & signature & -> & Halg & _ & Hclaims).
  simpl. unfold jwt.encode. simpl in *.
  rewrite Halg, signature_ok_encode. simpl.
  now rewrite validate_claims_retyped, Hclaims.
Qed.

(** C10 (amended).  [get_current_user] reads no token type.  A token
    that [jwt.decode] accepts at the time of the request under the server
    secret and the server's algorithm, and whose subject is the email of a
    stored user, resolves to that user; and so does the same token issued
    with any other type claim. *)
Theorem token_type_is_not_inspected (now : Z) (db : DB) (token : jwt.Token)
  (payload : Dict) (email : string) (user : models.User.t) :
  jwt.decode now token auth.SECRET_KEY [auth.ALGORITHM] = inl payload ->
  dict_get "sub" payload = Some (JStr email) ->
  crud.get_user_by_email db email = Some user ->
  main.get_current_user now db token = Return user /\
  (forall ty, main.get_current_user now db (retyped ty token) = Return user).
Proof.
  intros Hdec Hsub Hfind. split.
  - eapply decoded_token_resolves; eassumption.
  - intros ty.
    apply decoded_token_resolves
      with (payload := dict_update "type" ty payload) (email := email).
    + now apply retyped_decodes.
    + rewrite dict_get_update_other; [exact Hsub | discriminate].
    + exact Hfind.
Qed.

End TokenTypes.

(** ** Tokens of the modelled issuer *)

Section IssuedTokens.
Context {DB : Type} {store : crud.Crud DB}.
Context {signer : jwt.Signer} {builtins : jwt.Builtins}.
Variables (secret_key algorithm : string) (access_minutes refresh_days : Z).

Let issuer : auth.Auth :=
  auth.issuer secret_key algorithm access_minutes refresh_days.
#[local] Existing Instance issuer.

Lemma issue_access_subject (now : Z) (email : string) (ttl : Z) :
  subject (auth.create_access_token now [("sub"%string, JStr email)] ttl) =
  Some (JStr email).
Proof. reflexivity. Qed.

(** Until its expiry the access token decodes to the claims it was issued
    with. *)
Lemma issue_access_decodes (now now' : Z) (email : string) (ttl : Z) :
  now' <= now + ttl ->
  jwt.decode now'
    (auth.create_access_token now [("sub"%string, JStr email)] ttl)
    auth.SECRET_KEY [auth.ALGORITHM] =
  inl [("sub"%string, JStr email); ("exp"%string, JInt (now + ttl));
       ("type"%string, JStr "access")].
Proof.
  intros Hnow. simpl. unfold auth.issue_access. simpl.
  apply decode_signed. apply validate_claims_none.
  repeat split; try reflexivity.
  unfold jwt.validate_exp. simpl.
  destruct (Z.ltb_spec (now + ttl) now'); [lia | reflexivity].
Qed.

(** C2.  When [POST /token] authenticates [U], the access token it
    returns resolves to [U] at every later request made until the expiry of
    the token ([ACCESS_TOKEN_EXPIRE_MINUTES] after the login), on every
    store that has [U] under its email. *)
Theorem issued_access_token_resolves_to_its_user (now : Z)
  (form_data : main.OAuth2PasswordRequestForm) (db : DB) (U : models.User.t) :
  crud.authenticate_user db (main.username form_data)
    (main.password form_data) = Some U ->
  exists tokens,
    main.login_for_access_token now form_data db = Return tokens /\
    subject (schemas.Token.access_token tokens) =
      Some (JStr (models.User.email U)) /\
    forall now' db',
      now' <= now + 60 * access_minutes ->
      crud.get_user_by_email db' (models.User.email U) = Some U ->
      main.get_current_user now' db' (schemas.Token.access_token tokens) =
        Return U.
Proof.
  intros Hauth. unfold main.login_for_access_token. rewrite Hauth.
  eexists. split; [reflexivity |]. split; [reflexivity |].
  intros now' db' Hnow Hfind. cbn [schemas.Token.access_token].
  eapply decoded_token_resolves.
  - apply issue_access_decodes. exact Hnow.
  - reflexivity.
  - exact Hfind.
Qed.

End IssuedTokens.

(** ** The handlers over the list-backed store *)

Section TableFacts.
Import models.
Variable get_password_hash : string -> string.
Variable verify_password : string -> string -> bool.
Variable matches : string -> Contact.t -> bool.
Variable birthday_within_week : Z -> Contact.t -> bool.
Variable negative_limit_page : Z -> Z -> list Contact.t -> list Contact.t.
Variable negative_offset : Z -> list Contact.t -> list Contact.t.

Let store : crud.Crud table.DB :=
  table.crud get_password_hash verify_password matches birthday_within_week
    negative_limit_page negative_offset.
#[local] Existing Instance store.

Lemma filter_length_le {A : Type} (p : A -> bool) (l : list A) :
  (List.length (filter p l) <= List.length l)%nat.
Proof.
  induction l as [|x rest IH]; simpl; [lia |].
  destruct (p x); simpl; lia.
Qed.

(** C9 (amended).  [read_contacts] hands [skip] and [limit] to
    [crud.get_contacts] and filters the page it gets by owner afterwards,
    so that on every store it returns no more contacts than the page holds.
    Over the list-backed store, for every [skip] and every [limit] that is
    not negative, the page is cut out of the whole contacts table and the
    caller gets at most [limit] contacts; and there is a store on which the
    caller gets fewer than [limit] contacts although it owns [limit]
    contacts past [skip], the page being taken up by the contacts of
    another user. *)
Theorem read_contacts_paginates_before_filtering :
  (forall (DB : Type) (any_store : crud.Crud DB) (skip limit : Z) (db : DB)
          (u : User.t),
     (List.length (main.read_contacts skip limit db u) <=
      List.length (crud.get_contacts db skip limit))%nat) /\
  (forall (skip limit : Z) (db : table.DB) (u : User.t),
     0 <= limit ->
     main.read_contacts skip limit db u =
       filter (main.owned_by u)
         (firstn (Z.to_nat limit)
            (table.offset negative_offset skip (table.contacts db))) /\
     Z.of_nat (List.length (main.read_contacts skip limit db u)) <= limit) /\
  (exists (skip limit : Z) (db : table.DB) (u : User.t),
     0 <= skip /\ 0 <= limit /\
     limit <= Z.of_nat (List.length (filter (main.owned_by u)
                          (skipn (Z.to_nat skip) (table.contacts db)))) /\
     Z.of_nat (List.length (main.read_contacts skip limit db u)) < limit).
Proof.
  split; [| split].
  - intros DB any_store skip limit db u. apply filter_length_le.
  - intros skip limit db u Hlimit.
    assert (Hpage : crud.get_contacts db skip limit =
                    firstn (Z.to_nat limit)
                      (table.offset negative_offset skip (table.contacts db))).
    { simpl. unfold table.get_contacts.
      destruct (Z.ltb_spec limit 0); [lia | reflexivity]. }
    unfold main.read_contacts. rewrite Hpage. split; [reflexivity |].
    pose proof (filter_length_le (main.owned_by u)
      (firstn (Z.to_nat limit)
         (table.offset negative_offset skip (table.contacts db)))) as Hfilter.
    rewrite length_firstn in Hfilter. lia.
  - exists 0, 2, demo.db, demo.alice.
    split; [lia | split; [lia | split]].
    + vm_compute. discriminate.
    + vm_compute. reflexivity.
Qed.

(** A list has no fewer than zero contacts: under a negative [limit] the
    bound fails on every store. *)
Lemma negative_limit_bound_fails (DB : Type) (any_store : crud.Crud DB)
  (skip limit : Z) (db : DB) (u : User.t) :
  limit < 0 ->
  ~ Z.of_nat (List.length (main.read_contacts skip limit db u)) <= limit.
Proof. lia. Qed.

(** *** Users *)

Lemma find_app_found {A : Type} (p : A -> bool) (l extra : list A) (x : A) :
  find p l = Some x -> find p (l ++ extra) = Some x.
Proof.
  induction l as [|a rest IH]; simpl; [discriminate |].
  destruct (p a); auto.
Qed.

Lemma has_email_refl (u : User.t) : table.has_email (User.email u) u = true.
Proof. unfold table.has_email. apply String.eqb_refl. Qed.

Lemma get_user_by_email_found (db : table.DB) (email : string) (u : User.t) :
  crud.get_user_by_email db email = Some u ->
  In u (table.users db) /\ User.email u = email.
Proof.
  simpl. unfold table.get_user_by_email. intros H.
  apply find_some in H. destruct H as [Hin Hmail]. split; [exact Hin |].
  now apply String.eqb_eq.
Qed.

(** While emails are unique, a stored user is the user found under its
    email. *)
Lemma stored_user_is_found (db : table.DB) (u : User.t) :
  NoDup (map User.email (table.users db)) ->
  In u (table.users db) ->
  crud.get_user_by_email db (User.email u) = Some u.
Proof.
  simpl. unfold table.get_user_by_email.
  induction (table.users db) as [|a rest IH]; simpl; [contradiction |].
  intros Hnd Hin. inversion Hnd as [|x xs Hnotin Hnd' Heq]; subst.
  destruct Hin as [-> | Hin].
  - now rewrite has_email_refl.
  - destruct (table.has_email (User.email u) a) eqn:E; [| now apply IH].
    exfalso. apply Hnotin. unfold table.has_email in E.
    apply String.eqb_eq in E. rewrite E. now apply in_map.
Qed.

(** The user that the credentials authenticate is the user stored under
    its own email. *)
Lemma authenticated_user_is_found (db : table.DB) (email password : string)
  (u : User.t) :
  crud.authenticate_user db email password = Some u ->
  crud.get_user_by_email db (User.email u) = Some u /\
  User.email u = email /\
  verify_password password (User.hashed_password u) = true.
Proof.
  simpl. unfold table.authenticate_user.
  destruct (table.get_user_by_email db email) as [found |] eqn:Hfind;
    [| discriminate].
  destruct (verify_password password (User.hashed_password found)) eqn:Hpw;
    [| discriminate].
  intros [= <-].
  destruct (get_user_by_email_found db email Hfind) as [_ Hmail].
  rewrite Hmail. auto.
Qed.

(** Registration through the handler keeps the emails of the store unique
    and keeps every user found under the email it was found under. *)
Lemma register_keeps_emails_unique (user : schemas.UserCreate.t)
  (db : table.DB) :
  NoDup (map User.email (table.users db)) ->
  NoDup (map User.email (table.users (fst (main.create_user user db)))).
Proof.
  intros Hnd. unfold main.create_user. simpl.
  destruct (table.get_user_by_email db (schemas.UserCreate.email user))
    as [found |] eqn:Hfind; simpl; [exact Hnd |].
  rewrite map_app. simpl.
  apply NoDup_incl_NoDup with
    (l := schemas.UserCreate.email user :: map User.email (table.users db)).
  - constructor; [| exact Hnd].
    intros Hin. apply in_map_iff in Hin. destruct Hin as (u & Hmail & Hin).
    unfold table.get_user_by_email in Hfind.
    apply (find_none _ _ Hfind) in Hin.
    unfold table.has_email in Hin. rewrite Hmail, String.eqb_refl in Hin.
    discriminate.
  - rewrite length_app. simpl. lia.
  - intros x Hx. apply in_or_app. simpl in *. tauto.
Qed.

Lemma register_keeps_users_found (user : schemas.UserCreate.t)
  (db : table.DB) (email : string) (u : User.t) :
  crud.get_user_by_email db email = Some u ->
  crud.get_user_by_email (fst (main.create_user user db)) email = Some u.
Proof.
  intros Hfound. unfold main.create_user. simpl in *.
  destruct (table.get_user_by_email db (schemas.UserCreate.email user));
    simpl; [exact Hfound |].
  unfold table.get_user_by_email in *. simpl.
  now apply find_app_found.
Qed.

(** A request with the email of a stored user is answered 409, and the
    store keeps its users; a request with a new email adds one user, with
    that email, at the end of the table. *)
Lemma register_on_table (user : schemas.UserCreate.t) (db : table.DB) :
  (forall u, In u (table.users db) ->
             User.email u = schemas.UserCreate.email user ->
             main.POST_users user db = (db, mkResponse 409 [] None)) /\
  ((forall u, In u (table.users db) ->
              User.email u <> schemas.UserCreate.email user) ->
   exists created,
     main.POST_users user db =
       (table.mkDB (table.users db ++ [created]) (table.contacts db),
        mkResponse 201 [] (Some created)) /\
     User.email created = schemas.UserCreate.email user).
Proof.
  unfold main.POST_users, main.create_user. simpl.
  unfold table.get_user_by_email. split.
  - intros u Hin Hmail.
    destruct (find (table.has_email (schemas.UserCreate.email user))
                (table.users db)) eqn:Hfind; [reflexivity |].
    apply (find_none _ _ Hfind) in Hin. unfold table.has_email in Hin.
    rewrite Hmail, String.eqb_refl in Hin. discriminate.
  - intros Hnew.
    destruct (find (table.has_email (schemas.UserCreate.email user))
                (table.users db)) as [found |] eqn:Hfind.
    + apply find_some in Hfind. destruct Hfind as [Hin Hmail].
      apply String.eqb_eq in Hmail. now destruct (Hnew found Hin).
    + eexists. split; reflexivity.
Qed.

End TableFacts.

(** *** Contacts *)

Section TableContacts.
Import models.
Variable get_password_hash : string -> string.
Variable verify_password : string -> string -> bool.
Variable matches : string -> Contact.t -> bool.
Variable birthday_within_week : Z -> Contact.t -> bool.
Variable negative_limit_page : Z -> Z -> list Contact.t -> list Contact.t.
Variable negative_offset : Z -> list Contact.t -> list Contact.t.

Let store : crud.Crud table.DB :=
  table.crud get_password_hash verify_password matches birthday_within_week
    negative_limit_page negative_offset.
#[local] Existing Instance store.

Lemma filter_replace_first {A : Type} (q p : A -> bool) (new x : A)
  (l : list A) :
  find p l = Some x -> q x = false -> q new = false ->
  filter q (table.replace_first p new l) = filter q l.
Proof.
  intros Hfind Hx Hnew. induction l as [|a rest IH]; simpl in *;
    [discriminate |].
  destruct (p a).
  - injection Hfind as ->. simpl. now rewrite Hx, Hnew.
  - simpl. now rewrite IH.
Qed.

Lemma filter_remove_first {A : Type} (q p : A -> bool) (x : A) (l : list A) :
  find p l = Some x -> q x = false ->
  filter q (table.remove_first p l) = filter q l.
Proof.
  intros Hfind Hx. induction l as [|a rest IH]; simpl in *; [discriminate |].
  destruct (p a).
  - injection Hfind as ->. now rewrite Hx.
  - simpl. now rewrite IH.
Qed.

(** Whatever identifier and whatever data the caller sends, [update_contact]
    leaves the contacts of the other users as they were. *)
Lemma update_contact_keeps_foreign_contacts (u : User.t) (contact_id : Z)
  (contact : schemas.ContactCreate.t) (db : table.DB) :
  foreign_contacts u (fst (main.update_contact contact_id contact db u)) =
  foreign_contacts u db.
Proof.
  destruct (main.refuses u (crud.get_contact db contact_id)) eqn:R.
  - now rewrite (update_contact_refused _ _ _ _ R).
  - rewrite (update_contact_allowed _ _ _ _ R).
    apply refuses_false in R. destruct R as (c & Hget & Hown).
    simpl in *. unfold table.update_contact. rewrite Hget. simpl.
    unfold foreign_contacts. simpl.
    apply filter_replace_first with (x := c); [exact Hget | |];
      apply negb_false_iff, owned_by_spec; simpl; exact Hown.
Qed.

(** And so does [delete_contact]. *)
Lemma delete_contact_keeps_foreign_contacts (u : User.t) (contact_id : Z)
  (db : table.DB) :
  foreign_contacts u (fst (main.delete_contact contact_id db u)) =
  foreign_contacts u db.
Proof.
  destruct (main.refuses u (crud.get_contact db contact_id)) eqn:R.
  - now rewrite (delete_contact_refused _ _ _ R).
  - rewrite (delete_contact_allowed _ _ _ R).
    apply refuses_false in R. destruct R as (c & Hget & Hown).
    simpl in *. unfold table.delete_contact. rewrite Hget. simpl.
    unfold foreign_contacts. simpl.
    apply filter_remove_first with (x := c); [exact Hget |].
    apply negb_false_iff, owned_by_spec. exact Hown.
Qed.

(** No request takes a user out of the store or changes it. *)
Lemma request_step_keeps_users_found (db db' : table.DB) (email : string)
  (u : User.t) :
  request_step db db' ->
  crud.get_user_by_email db email = Some u ->
  crud.get_user_by_email db' email = Some u.
Proof.
  intros Hstep Hfound. inversion Hstep; subst; clear Hstep.
  - now apply register_keeps_users_found.
  - exact Hfound.
  - unfold main.update_contact.
    destruct (main.refuses _ _); [exact Hfound |].
    simpl. unfold table.update_contact.
    destruct (table.get_contact db contact_id); exact Hfound.
  - unfold main.delete_contact.
    destruct (main.refuses _ _); [exact Hfound |].
    simpl. unfold table.delete_contact.
    destruct (table.get_contact db contact_id); exact Hfound.
Qed.

Lemma requests_keep_users_found (db db' : table.DB) (email : string)
  (u : User.t) :
  requests db db' ->
  crud.get_user_by_email db email = Some u ->
  crud.get_user_by_email db' email = Some u.
Proof.
  induction 1 as [db | db mid db' Hreqs IH Hstep]; intros Hfound.
  - exact Hfound.
  - eapply request_step_keeps_users_found; [exact Hstep | now apply IH].
Qed.

End TableContacts.

(** *** Issued tokens across requests *)

Section TableTokens.
Import models.
Variable get_password_hash : string -> string.
Variable verify_password : string -> string -> bool.
Variable matches : string -> Contact.t -> bool.
Variable birthday_within_week : Z -> Contact.t -> bool.
Variable negative_limit_page : Z -> Z -> list Contact.t -> list Contact.t.
Variable negative_offset : Z -> list Contact.t -> list Contact.t.
Context {signer : jwt.Signer} {builtins : jwt.Builtins}.
Variables (secret_key algorithm : string) (access_minutes refresh_days : Z).

Let store : crud.Crud table.DB :=
  table.crud get_password_hash verify_password matches birthday_within_week
    negative_limit_page negative_offset.
Let issuer : auth.Auth :=
  auth.issuer secret_key algorithm access_minutes refresh_days.
#[local] Existing Instance store.
#[local] Existing Instance issuer.

(** On the list-backed store, the access token of a login stays good for
    its user through every sequence of later requests, until it expires. *)
Lemma issued_token_survives_requests (now now' : Z)
  (form_data : main.OAuth2PasswordRequestForm) (db db' : table.DB)
  (tokens : schemas.Token.t jwt.Token) :
  main.login_for_access_token now form_data db = Return tokens ->
  requests db db' ->
  now' <= now + 60 * access_minutes ->
  exists U,
    In U (table.users db) /\
    User.email U = main.username form_data /\
    main.get_current_user now' db' (schemas.Token.access_token tokens) =
      Return U.
Proof.
  unfold main.login_for_access_token.
  destruct (crud.authenticate_user db (main.username form_data)
              (main.password form_data)) as [U |] eqn:Hauth; [| discriminate].
  intros [= <-] Hreqs Hnow.
  destruct (authenticated_user_is_found get_password_hash verify_password
              matches birthday_within_week negative_limit_page negative_offset
              _ _ _ Hauth) as (Hfound & Hmail & _).
  exists U. split; [| split; [exact Hmail |]].
  - now apply (get_user_by_email_found get_password_hash verify_password
                 matches birthday_within_week negative_limit_page
                 negative_offset) in Hfound.
  - cbn [schemas.Token.access_token].
    eapply decoded_token_resolves.
    + apply (@issue_access_decodes signer builtins secret_key algorithm
               access_minutes refresh_days). exact Hnow.
    + reflexivity.
    + eapply requests_keep_users_found; eassumption.
Qed.

End TableTokens.

(** ** Altered tokens *)

Section AlteredTokens.
Context {signer : jwt.Signer} {issuer : auth.Auth}.

(** With a signer that gives different claims different signatures, a token
    of the server whose claims were changed while its signature was kept is
    a tampered one. *)
Lemma altered_claims_are_tampered (alg : string) (claims claims' : Dict) :
  (forall c c', jwt.sign auth.SECRET_KEY alg c = jwt.sign auth.SECRET_KEY alg c' ->
                c = c') ->
  claims' <> claims ->
  tampered (jwt.Jws alg claims' (jwt.sign auth.SECRET_KEY alg claims)) = true.
Proof.
  intros Hinj Hne. simpl. apply negb_true_iff.
  destruct (String.eqb_spec (jwt.sign auth.SECRET_KEY alg claims)
              (jwt.sign auth.SECRET_KEY alg claims')) as [E | E];
    [| reflexivity].
  apply Hinj in E. congruence.
Qed.

End AlteredTokens.

(** ** The statements at the concrete deployment *)

Section Deployment.
#[local] Existing Instance demo.signer.
#[local] Existing Instance demo.builtins.
#[local] Existing Instance demo.issuer.
#[local] Existing Instance demo.store.

(** Alice and the first contact of bob. *)
Lemma foreign_contact_is_out_of_reach_witness :
  ~ In (demo.contact 1 "ann" 2) (main.read_contacts 0 10 demo.db demo.alice) /\
  main.update_contact 1 demo.new_contact demo.db demo.alice =
    (demo.db, Raise (mkHTTPException 404
       "Contact not found or not authorized to update this contact" [])) /\
  main.delete_contact 1 demo.db demo.alice =
    (demo.db, Raise (mkHTTPException 404
       "Contact not found or not authorized to delete this contact" [])).
Proof.
  destruct (@foreign_contact_is_out_of_reach table.DB demo.store demo.alice
              (demo.contact 1 "ann" 2)) as (Hread & Hupdate & Hdelete).
  - simpl. lia.
  - split; [apply Hread | split; [apply Hupdate | apply Hdelete]]; reflexivity.
Defined.

(** Alice asks for contact 1, which is bob's. *)
Lemma not_found_exactly_when_missing_or_foreign_witness :
  missing_or_foreign demo.alice demo.db 1 /\
  (exists e, snd (main.update_contact 1 demo.new_contact demo.db demo.alice) =
             Raise e /\ status_code e = 404) /\
  (exists e, snd (main.delete_contact 1 demo.db demo.alice) = Raise e /\
             status_code e = 404) /\
  fst (main.update_contact 1 demo.new_contact demo.db demo.alice) = demo.db /\
  fst (main.delete_contact 1 demo.db demo.alice) = demo.db.
Proof.
  assert (H : missing_or_foreign demo.alice demo.db 1).
  { right. exists (demo.contact 1 "ann" 2). split; [reflexivity | simpl; lia]. }
  destruct (@not_found_exactly_when_missing_or_foreign table.DB demo.store
              demo.alice 1 demo.new_contact demo.db) as (Hu & Hd & Hdb).
  split; [exact H |]. split; [apply Hu, H |]. split; [apply Hd, H |].
  apply Hdb, H.
Defined.

(** A registration under bob's email, and one under a new email. *)
Lemma register_conflict_or_created_witness :
  main.POST_users (schemas.UserCreate.mk "bob@example.com" "hammer") demo.db =
    (demo.db, mkResponse 409 [] None) /\
  main.POST_users (schemas.UserCreate.mk "carol@example.com" "singer") demo.db =
    (table.mkDB
       [demo.alice; demo.bob;
        models.User.mk 3 "carol@example.com" (demo.hash "singer") true]
       (table.contacts demo.db),
     mkResponse 201 []
       (Some (models.User.mk 3 "carol@example.com" (demo.hash "singer") true))).
Proof.
  split.
  - apply (proj1 (@register_conflict_or_created table.DB demo.store
                    (schemas.UserCreate.mk "bob@example.com" "hammer") demo.db))
      with (existing := demo.bob).
    reflexivity.
  - apply (proj2 (@register_conflict_or_created table.DB demo.store
                    (schemas.UserCreate.mk "carol@example.com" "singer")
                    demo.db)).
    reflexivity.
Defined.

(** A login of alice with her password, and one with a wrong password. *)
Lemma login_issues_both_tokens_or_401_witness :
  (exists access refresh,
     main.POST_token 1000 (main.mkForm "alice@example.com" "wonderland") demo.db =
       mkResponse 200 [] (Some (schemas.Token.mk access refresh "bearer"))) /\
  resp_status
    (main.POST_token 1000 (main.mkForm "alice@example.com" "guess") demo.db) = 401.
Proof.
  split.
  - do 2 eexists.
    apply (proj1 (@login_issues_both_tokens_or_401 table.DB demo.store
                    demo.issuer 1000
                    (main.mkForm "alice@example.com" "wonderland") demo.db)
             demo.alice).
    reflexivity.
  - apply (proj2 (@login_issues_both_tokens_or_401 table.DB demo.store
                    demo.issuer 1000
                    (main.mkForm "alice@example.com" "guess") demo.db)).
    reflexivity.
Defined.

(** The login of alice at 1000 and a request at 2800, the last second of
    the access token. *)
Lemma issued_access_token_resolves_to_its_user_witness :
  exists tokens,
    main.login_for_access_token 1000
      (main.mkForm "alice@example.com" "wonderland") demo.db = Return tokens /\
    main.get_current_user 2800 demo.db (schemas.Token.access_token tokens) =
      Return demo.alice.
Proof.
  destruct (@issued_access_token_resolves_to_its_user table.DB demo.store
              demo.signer demo.builtins "server-secret" "HS256" 30 7 1000
              (main.mkForm "alice@example.com" "wonderland") demo.db demo.alice)
    as (tokens & Hlogin & _ & Hresolve).
  - reflexivity.
  - exists tokens. split; [exact Hlogin |].
    apply Hresolve; [lia | reflexivity].
Defined.

(** The access token of alice one second after its expiry, and the forged
    token. *)
Lemma expired_or_tampered_token_is_rejected_witness :
  main.get_current_user 2801 demo.db demo.alice_access_token =
    Raise main.credentials_exception /\
  main.get_current_user 1000 demo.db demo.forged_token =
    Raise main.credentials_exception.
Proof.
  split.
  - apply (@expired_or_tampered_token_is_rejected table.DB demo.store
             demo.signer demo.builtins
             demo.issuer 2801 demo.db demo.alice_access_token).
    left. reflexivity.
  - apply (@expired_or_tampered_token_is_rejected table.DB demo.store
             demo.signer demo.builtins
             demo.issuer 1000 demo.db demo.forged_token).
    right. reflexivity.
Defined.

(** A text that is no token, a signed token without subject, a signed token
    for an email that is not registered, and the access token of alice. *)
Lemma verification_failures_collapse_to_401_witness :
  main.get_current_user 1000 demo.db (jwt.Malformed "not.a.token") =
    Raise main.credentials_exception /\
  main.get_current_user 1000 demo.db
    (jwt.encode [("exp"%string, JInt 2000)] "server-secret" "HS256") =
    Raise main.credentials_exception /\
  main.get_current_user 1000 demo.db
    (jwt.encode [("sub"%string, JStr "carol@example.com")] "server-secret"
       "HS256") =
    Raise main.credentials_exception /\
  main.get_current_user 1000 demo.db demo.alice_access_token =
    Return demo.alice.
Proof.
  split; [| split; [| split]].
  - destruct (@verification_failures_collapse_to_401 table.DB demo.store
                demo.signer demo.builtins demo.issuer 1000 demo.db
                (jwt.Malformed "not.a.token")) as (H & _).
    apply (H jwt.NotAToken). reflexivity.
  - destruct (@verification_failures_collapse_to_401 table.DB demo.store
                demo.signer demo.builtins demo.issuer 1000 demo.db
                (jwt.encode [("exp"%string, JInt 2000)] "server-secret"
                   "HS256")) as (_ & H & _).
    apply (H [("exp"%string, JInt 2000)]); reflexivity.
  - destruct (@verification_failures_collapse_to_401 table.DB demo.store
                demo.signer demo.builtins demo.issuer 1000 demo.db
                (jwt.encode [("sub"%string, JStr "carol@example.com")]
                   "server-secret" "HS256")) as (_ & _ & H & _).
    apply (H [("sub"%string, JStr "carol@example.com")]
             "carol@example.com"%string);
      reflexivity.
  - destruct (@verification_failures_collapse_to_401 table.DB demo.store
                demo.signer demo.builtins
                demo.issuer 1000 demo.db demo.alice_access_token)
      as (_ & _ & _ & H & _).
    apply H.
    exists [("sub"%string, JStr "alice@example.com"); ("exp"%string, JInt 2800);
            ("type"%string, JStr "access")], "alice@example.com"%string.
    repeat split; reflexivity.
Defined.

(** The refresh token of alice, presented as a bearer token. *)
Lemma token_type_is_not_inspected_witness :
  main.get_current_user 2000 demo.db demo.alice_refresh_token =
    Return demo.alice /\
  main.get_current_user 2000 demo.db
    (retyped (JStr "access") demo.alice_refresh_token) = Return demo.alice.
Proof.
  destruct (@token_type_is_not_inspected table.DB demo.store demo.signer
              demo.builtins demo.issuer 2000 demo.db demo.alice_refresh_token
              [("sub"%string, JStr "alice@example.com");
               ("exp"%string, JInt 605800); ("type"%string, JStr "refresh")]
              "alice@example.com"%string demo.alice)
    as (Has_issued & Hretyped); try reflexivity.
  split; [exact Has_issued | apply Hretyped].
Defined.

(** C10, as it is stated, at the refresh token of alice once it has
    expired: its signature verifies under the server secret and its subject
    is the email of alice, who is in the store, and [get_current_user]
    raises instead of returning her. *)
Lemma expired_signed_token_is_not_resolved :
  verifies demo.alice_refresh_token = true /\
  subject demo.alice_refresh_token = Some (JStr "alice@example.com") /\
  crud.get_user_by_email demo.db "alice@example.com" = Some demo.alice /\
  main.get_current_user 605801 demo.db demo.alice_refresh_token =
    Raise main.credentials_exception /\
  main.get_current_user 605801 demo.db demo.alice_refresh_token <>
    Return demo.alice.
Proof.
  repeat split; try reflexivity. vm_compute. discriminate.
Qed.

(** A signature that verifies and a stored subject do not suffice either
    when the token names an audience: [main.py] gives [jwt.decode] none. *)
Lemma signed_token_with_audience_is_not_resolved :
  verifies demo.alice_token_with_audience = true /\
  subject demo.alice_token_with_audience = Some (JStr "alice@example.com") /\
  main.get_current_user 1000 demo.db demo.alice_token_with_audience =
    Raise main.credentials_exception.
Proof. repeat split; reflexivity. Qed.

(** The second page of two contacts, for alice. *)
Lemma read_contacts_paginates_before_filtering_witness :
  Z.of_nat (List.length (main.read_contacts 1 2 demo.db demo.alice)) <= 2.
Proof.
  destruct (proj1 (proj2 (read_contacts_paginates_before_filtering
                            demo.hash demo.verify demo.matches
                            demo.birthday_within_week demo.negative_limit_page
                            demo.negative_offset))
              1 2 demo.db demo.alice) as [_ Hbound].
  - lia.
  - exact Hbound.
Defined.

(** C9, as it is stated, at [limit = -1]: the list that [read_contacts]
    returns has not "at most -1" contacts. *)
Lemma negative_limit_is_exceeded :
  ~ Z.of_nat (List.length (main.read_contacts 0 (-1) demo.db demo.alice))
    <= -1.
Proof. vm_compute. intros H. apply H. reflexivity. Qed.

End Deployment.

(** ** The routes *)

Section RouteFacts.
Context {DB : Type} {store : crud.Crud DB}.
Context {signer : jwt.Signer} {builtins : jwt.Builtins} {issuer : auth.Auth}.

(** The dependency of a protected route resolves a user, or raises an
    exception of status 401 that carries the bearer challenge. *)
Lemma current_user_dependency_cases (now : Z) (db : DB)
  (authorization : option jwt.Token) :
  (exists u, main.current_user_dependency now db authorization = Return u) \/
  (exists e, main.current_user_dependency now db authorization = Raise e /\
             status_code e = 401 /\ headers e = main.bearer_challenge).
Proof.
  unfold main.current_user_dependency.
  destruct authorization as [token |]; simpl.
  - rewrite get_current_user_eq.
    destruct (jwt.decode now token auth.SECRET_KEY [auth.ALGORITHM])
      as [payload | err].
    + destruct (dict_get "sub" payload) as [[email | z] |].
      * destruct (crud.get_user_by_email db email) as [u |].
        -- left. now exists u.
        -- right. now eexists.
      * right. now eexists.
      * right. now eexists.
    + right. now eexists.
  - right. now eexists.
Qed.

Lemma protected_refused {A : Type} (success now : Z) (db : DB)
  (authorization : option jwt.Token) (e : HTTPException)
  (handler : models.User.t -> DB * Outcome A) :
  main.current_user_dependency now db authorization = Raise e ->
  main.protected success now db authorization handler =
    (db, mkResponse (status_code e) (headers e) None).
Proof. unfold main.protected. now intros ->. Qed.

Lemma protected_with_user {A : Type} (success now : Z) (db : DB)
  (authorization : option jwt.Token) (u : models.User.t)
  (handler : models.User.t -> DB * Outcome A) :
  main.current_user_dependency now db authorization = Return u ->
  main.protected success now db authorization handler =
    (fst (handler u), respond success (snd (handler u))).
Proof.
  unfold main.protected. intros ->. now destruct (handler u).
Qed.

(** A request without a user: the route answers 401 with the challenge and
    hands back its store. *)
Lemma protected_without_user {A : Type} (success now : Z) (db : DB)
  (authorization : option jwt.Token)
  (handler : models.User.t -> DB * Outcome A) :
  (forall u, main.current_user_dependency now db authorization <> Return u) ->
  main.protected success now db authorization handler =
    (db, mkResponse 401 main.bearer_challenge None).
Proof.
  intros Hnone.
  destruct (current_user_dependency_cases now db authorization)
    as [[u Hu] | (e & He & Hstatus & Hheaders)].
  - now destruct (Hnone u).
  - rewrite protected_refused with (e := e) by exact He.
    now rewrite Hstatus, Hheaders.
Qed.

End RouteFacts.

Section RouteProperties.
Context {DB : Type} {store : crud.Crud DB}.
Context {signer : jwt.Signer} {builtins : jwt.Builtins} {issuer : auth.Auth}.

(** X1.  A request that brings no bearer token, or one that
    [get_current_user] does not resolve, is answered 401 with the header
    [WWW-Authenticate: Bearer] by each of the six routes that depend on
    [get_current_user]; no handler runs and the store is handed back. *)
Theorem unauthenticated_request_is_refused (now : Z) (db : DB)
  (authorization : option jwt.Token) :
  (forall u, main.current_user_dependency now db authorization <> Return u) ->
  (forall skip limit,
     main.GET_contacts now authorization skip limit db =
       (db, mkResponse 401 main.bearer_challenge None)) /\
  (forall contact,
     main.POST_contacts now authorization contact db =
       (db, mkResponse 401 main.bearer_challenge None)) /\
  (forall contact_id contact,
     main.PUT_contact now authorization contact_id contact db =
       (db, mkResponse 401 main.bearer_challenge None)) /\
  (forall contact_id,
     main.DELETE_contact now authorization contact_id db =
       (db, mkResponse 401 main.bearer_challenge None)) /\
  (forall query,
     main.GET_contacts_search now authorization query db =
       (db, mkResponse 401 main.bearer_challenge None)) /\
  main.GET_contacts_upcoming_birthdays now authorization db =
    (db, mkResponse 401 main.bearer_challenge None).
Proof.
  intros Hnone.
  split; [| split; [| split; [| split; [| split]]]]; intros;
    now apply protected_without_user.
Qed.

(** X3.  [PUT /contacts/{contact_id}] and [DELETE /contacts/{contact_id}]
    write to the store only for an authenticated caller who owns the contact
    found under the identifier: either the store is handed back as it was,
    or the token resolved to a user, the contact found is that user's, and
    the store is the one that [crud.update_contact], respectively
    [crud.delete_contact], left. *)
Theorem contact_writes_require_the_owner (now : Z)
  (authorization : option jwt.Token) (contact_id : Z) (db : DB) :
  (forall contact,
     fst (main.PUT_contact now authorization contact_id contact db) = db \/
     exists u c,
       main.current_user_dependency now db authorization = Return u /\
       crud.get_contact db contact_id = Some c /\
       models.Contact.owner_id c = models.User.id u /\
       main.PUT_contact now authorization contact_id contact db =
         (fst (crud.update_contact db contact contact_id),
          mkResponse 200 []
            (Some (snd (crud.update_contact db contact contact_id))))) /\
  (fst (main.DELETE_contact now authorization contact_id db) = db \/
   exists u c,
     main.current_user_dependency now db authorization = Return u /\
     crud.get_contact db contact_id = Some c /\
     models.Contact.owner_id c = models.User.id u /\
     fst (main.DELETE_contact now authorization contact_id db) =
       fst (crud.delete_contact db contact_id) /\
     resp_status (snd (main.DELETE_contact now authorization contact_id db)) =
       204).
Proof.
  unfold main.PUT_contact, main.DELETE_contact.
  destruct (current_user_dependency_cases now db authorization)
    as [[u Hu] | (e & He & _)].
  - destruct (main.refuses u (crud.get_contact db contact_id)) eqn:R.
    + split; [intros contact |]; left;
        rewrite protected_with_user with (u := u) by exact Hu.
      * now rewrite (update_contact_refused _ _ _ _ R).
      * now rewrite (delete_contact_refused _ _ _ R).
    + pose proof R as R'. apply refuses_false in R'.
      destruct R' as (c & Hget & Hown).
      split; [intros contact |]; right; exists u, c;
        rewrite protected_with_user with (u := u) by exact Hu.
      * rewrite (update_contact_allowed _ _ _ _ R). simpl. auto.
      * rewrite (delete_contact_allowed _ _ _ R). simpl. auto.
  - split; [intros contact |]; left;
      now rewrite protected_refused with (e := e) by exact He.
Qed.

(** X4.  The three listing routes never write to the store, and a list
    in their answer holds only contacts of the user that the token of the
    request resolved to. *)
Theorem listings_show_the_callers_contacts (now : Z)
  (authorization : option jwt.Token) (db : DB)
  (skip limit : Z) (query : string) :
  let owned_by_caller (answer : DB * Response (list models.Contact.t)) :=
    fst answer = db /\
    forall contacts, resp_body (snd answer) = Some contacts ->
      exists u,
        main.current_user_dependency now db authorization = Return u /\
        Forall (fun c => models.Contact.owner_id c = models.User.id u)
          contacts in
  owned_by_caller (main.GET_contacts now authorization skip limit db) /\
  owned_by_caller (main.GET_contacts_search now authorization query db) /\
  owned_by_caller (main.GET_contacts_upcoming_birthdays now authorization db).
Proof.
  unfold main.GET_contacts, main.GET_contacts_search,
    main.GET_contacts_upcoming_birthdays.
  destruct (current_user_dependency_cases now db authorization)
    as [[u Hu] | (e & He & _)].
  - repeat split; rewrite protected_with_user with (u := u) by exact Hu;
      simpl; auto; intros contacts [= <-]; exists u; split; auto;
      apply filter_owned.
  - repeat split; rewrite protected_refused with (e := e) by exact He;
      simpl; auto; discriminate.
Qed.

(** X5.  [POST /contacts/] creates a contact only for an authenticated
    caller, and under the caller's identifier: either the store is handed
    back as it was and the answer is the 401, or the token resolved to a
    user and the route answers 201 with what [crud.create_contact] made for
    that user's identifier. *)
Theorem contact_is_created_for_the_caller (now : Z)
  (authorization : option jwt.Token) (contact : schemas.ContactCreate.t)
  (db : DB) :
  main.POST_contacts now authorization contact db =
    (db, mkResponse 401 main.bearer_challenge None) \/
  exists u,
    main.current_user_dependency now db authorization = Return u /\
    main.POST_contacts now authorization contact db =
      (fst (crud.create_contact db contact (models.User.id u)),
       mkResponse 201 []
         (Some (snd (crud.create_contact db contact (models.User.id u))))).
Proof.
  unfold main.POST_contacts.
  destruct (current_user_dependency_cases now db authorization)
    as [[u Hu] | (e & He & Hstatus & Hheaders)].
  - right. exists u. split; [exact Hu |].
    rewrite protected_with_user with (u := u) by exact Hu.
    unfold main.create_contact.
    now destruct (crud.create_contact db contact (models.User.id u)).
  - left. rewrite protected_refused with (e := e) by exact He.
    now rewrite Hstatus, Hheaders.
Qed.

End RouteProperties.

(** ** Pages of contacts *)

Section PageProperties.
Context {DB : Type} {store : crud.Crud DB}.

Lemma filter_disjoint_length {A : Type} (p q : A -> bool) (l : list A) :
  (forall x, p x = true -> q x = false) ->
  (List.length (filter p l) + List.length (filter q l) <= List.length l)%nat.
Proof.
  intros Hpq. induction l as [|a rest IH]; simpl; [lia |].
  destruct (p a) eqn:Hp.
  - rewrite (Hpq a Hp). simpl. lia.
  - destruct (q a); simpl; lia.
Qed.

Lemma filter_keeps_all {A : Type} (p : A -> bool) (l : list A) :
  filter p l = l <-> Forall (fun x => p x = true) l.
Proof.
  induction l as [|a rest IH]; simpl.
  - split; auto.
  - destruct (p a) eqn:Hp.
    + split.
      * intros [= H]. constructor; [exact Hp | now apply IH].
      * intros H. inversion H; subst. f_equal. now apply IH.
    + split.
      * intros H. pose proof (filter_length_le p rest) as Hlen.
        rewrite H in Hlen. simpl in Hlen. lia.
      * intros H. inversion H; subst. congruence.
Qed.

Lemma owned_by_two_users (u1 u2 : models.User.t) (c : models.Contact.t) :
  models.User.id u1 <> models.User.id u2 ->
  main.owned_by u1 c = true -> main.owned_by u2 c = false.
Proof.
  intros Hne H1. apply owned_by_spec in H1.
  apply not_true_iff_false. rewrite owned_by_spec. congruence.
Qed.

(** X6.  Two callers with different identifiers are never shown the same
    contact by [read_contacts], whatever pages they ask for; and on one page
    they share its rows: what the two get together is no longer than the
    page that [crud.get_contacts] returned. *)
Theorem pages_of_two_users_are_disjoint (u1 u2 : models.User.t) :
  models.User.id u1 <> models.User.id u2 ->
  (forall skip1 limit1 db1 skip2 limit2 db2 c,
     In c (main.read_contacts skip1 limit1 db1 u1) ->
     ~ In c (main.read_contacts skip2 limit2 db2 u2)) /\
  (forall skip limit db,
     (List.length (main.read_contacts skip limit db u1) +
      List.length (main.read_contacts skip limit db u2) <=
      List.length (crud.get_contacts db skip limit))%nat).
Proof.
  intros Hne. split.
  - intros skip1 limit1 db1 skip2 limit2 db2 c H1 H2.
    unfold main.read_contacts in H1, H2.
    apply filter_In in H1. apply filter_In in H2.
    destruct H1 as [_ H1]. destruct H2 as [_ H2].
    rewrite (@owned_by_two_users u1 u2 c Hne H1) in H2. discriminate.
  - intros skip limit db. unfold main.read_contacts.
    apply filter_disjoint_length. intros c. now apply owned_by_two_users.
Qed.

(** X7.  [read_contacts] returns the whole page that [crud.get_contacts]
    produced exactly when every contact of that page is the caller's. *)
Theorem whole_page_exactly_when_all_owned (skip limit : Z) (db : DB)
  (u : models.User.t) :
  main.read_contacts skip limit db u = crud.get_contacts db skip limit <->
  Forall (fun c => models.Contact.owner_id c = models.User.id u)
    (crud.get_contacts db skip limit).
Proof.
  unfold main.read_contacts. rewrite filter_keeps_all.
  split; intros H; eapply Forall_impl; try exact H;
    intros c Hc; now apply owned_by_spec.
Qed.

(** X14.  The refusal of [update_contact], and that of [delete_contact],
    is the same exception whether the contact does not exist or belongs to
    somebody else, for whatever caller, identifier, data and store: the
    answer does not tell the two cases apart. *)
Theorem refusals_do_not_tell_missing_from_foreign
  (u u' : models.User.t) (contact_id contact_id' : Z)
  (contact contact' : schemas.ContactCreate.t) (db db' : DB) :
  crud.get_contact db contact_id = None ->
  (exists c, crud.get_contact db' contact_id' = Some c /\
             models.Contact.owner_id c <> models.User.id u') ->
  snd (main.update_contact contact_id contact db u) =
    snd (main.update_contact contact_id' contact' db' u') /\
  snd (main.delete_contact contact_id db u) =
    snd (main.delete_contact contact_id' db' u').
Proof.
  intros Hmissing Hforeign.
  assert (R : main.refuses u (crud.get_contact db contact_id) = true)
    by (apply refuses_spec; now left).
  assert (R' : main.refuses u' (crud.get_contact db' contact_id') = true)
    by (apply refuses_spec; now right).
  rewrite (update_contact_refused _ _ _ _ R).
  rewrite (update_contact_refused _ _ _ _ R').
  rewrite (delete_contact_refused _ _ _ R).
  rewrite (delete_contact_refused _ _ _ R').
  split; reflexivity.
Qed.

End PageProperties.

(** ** More on resolving a token *)

Section ResolverProperties.
Context {DB : Type} {store : crud.Crud DB}.
Context {signer : jwt.Signer} {builtins : jwt.Builtins} {issuer : auth.Auth}.

Lemma decode_between (now1 now2 now3 : Z) (token : jwt.Token) (key : string)
  (algorithms : list string) (payload payload' : Dict) :
  now1 <= now2 <= now3 ->
  jwt.decode now1 token key algorithms = inl payload ->
  jwt.decode now3 token key algorithms = inl payload' ->
  jwt.decode now2 token key algorithms = inl payload.
Proof.
  intros Hle Hdec1 Hdec3.
  destruct (decode_inl _ _ _ _ Hdec1)
    as (alg & signature & -> & Halg & Hsig & Hclaims1).
  destruct (decode_inl _ _ _ _ Hdec3)
    as (alg' & signature' & [= _ <- _] & _ & _ & Hclaims3).
  simpl. rewrite Halg, Hsig. simpl.
  now rewrite (@validate_claims_between _ now1 now2 now3 payload Hle
                 Hclaims1 Hclaims3).
Qed.

Lemma decode_later (now1 now2 : Z) (token : jwt.Token) (key : string)
  (algorithms : list string) (payload : Dict) :
  now1 <= now2 ->
  dict_get "exp" payload = None ->
  jwt.decode now1 token key algorithms = inl payload ->
  jwt.decode now2 token key algorithms = inl payload.
Proof.
  intros Hle Hnoexp Hdec.
  destruct (decode_inl _ _ _ _ Hdec)
    as (alg & signature & -> & Halg & Hsig & Hclaims).
  simpl. rewrite Halg, Hsig. simpl.
  now rewrite (@validate_claims_later _ now1 now2 payload Hle Hnoexp Hclaims).
Qed.

(** X8.  The times at which [get_current_user] resolves a token form an
    interval: a token resolved at two times is resolved, to the same user,
    at every time between them.  The clock enters through the not-before
    and the expiry checks of [jwt.decode] alone. *)
Theorem token_is_accepted_over_an_interval (now1 now2 now3 : Z) (db : DB)
  (token : jwt.Token) (u u' : models.User.t) :
  now1 <= now2 <= now3 ->
  main.get_current_user now1 db token = Return u ->
  main.get_current_user now3 db token = Return u' ->
  main.get_current_user now2 db token = Return u.
Proof.
  intros Hle. rewrite !get_current_user_eq.
  destruct (jwt.decode now1 token auth.SECRET_KEY [auth.ALGORITHM])
    as [payload | err] eqn:Hdec1; [| discriminate].
  destruct (jwt.decode now3 token auth.SECRET_KEY [auth.ALGORITHM])
    as [payload' | err] eqn:Hdec3; [| discriminate].
  intros H1 _. now rewrite (decode_between _ _ _ Hle Hdec1 Hdec3).
Qed.

(** X9.  [jwt.decode] is called with the single algorithm
    [auth.ALGORITHM]: a token whose header names any other algorithm is
    refused with the 401, whatever its claims and whatever its signature,
    the server's own signature under that other algorithm included. *)
Theorem other_algorithm_is_refused (now : Z) (db : DB) (alg : string)
  (claims : Dict) (signature : string) :
  alg <> auth.ALGORITHM ->
  main.get_current_user now db (jwt.Jws alg claims signature) =
    Raise main.credentials_exception.
Proof.
  intros Hne. rewrite get_current_user_eq. simpl.
  destruct (String.eqb_spec alg auth.ALGORITHM); [contradiction |].
  reflexivity.
Qed.

(** X10.  [get_current_user] asks for no expiry: a token without an
    [exp] claim that it resolves at some time is resolved, to the same user,
    at every later time. *)
Theorem token_without_expiry_never_expires (now1 now2 : Z) (db : DB)
  (alg : string) (claims : Dict) (signature : string) (u : models.User.t) :
  dict_get "exp" claims = None ->
  now1 <= now2 ->
  main.get_current_user now1 db (jwt.Jws alg claims signature) = Return u ->
  main.get_current_user now2 db (jwt.Jws alg claims signature) = Return u.
Proof.
  intros Hnoexp Hle. rewrite !get_current_user_eq.
  destruct (jwt.decode now1 (jwt.Jws alg claims signature) auth.SECRET_KEY
              [auth.ALGORITHM]) as [payload | err] eqn:Hdec; [| discriminate].
  assert (Hsame : payload = claims).
  { destruct (decode_inl _ _ _ _ Hdec) as (a & sg & [= _ <- _] & _).
    reflexivity. }
  subst payload.
  now rewrite (decode_later _ _ _ Hle Hnoexp Hdec).
Qed.

(** X11.  [get_current_user] reads the store through
    [crud.get_user_by_email] alone: on two stores that find the same users
    under the same emails it gives the same outcome, whatever else they
    hold. *)
Theorem resolver_reads_users_by_email_only (now : Z) (db1 db2 : DB)
  (token : jwt.Token) :
  (forall email,
     crud.get_user_by_email db1 email = crud.get_user_by_email db2 email) ->
  main.get_current_user now db1 token = main.get_current_user now db2 token.
Proof.
  intros Hsame. rewrite !get_current_user_eq.
  destruct (jwt.decode now token auth.SECRET_KEY [auth.ALGORITHM])
    as [payload | err]; [| reflexivity].
  destruct (dict_get "sub" payload) as [[email | z] |]; try reflexivity.
  now rewrite Hsame.
Qed.

End ResolverProperties.

(** ** Handlers one after the other *)

Section SequenceProperties.
Context {DB : Type} {store : crud.Crud DB}.


(** X13.  On a store that finds the contact it has just created, with the
    owner it was given: after [create_contact] by [u], an [update_contact]
    or [delete_contact] of the new contact by [u] reaches the store, and one
    by a caller with another identifier is refused with the 404 and leaves
    the store as it was. *)
Theorem created_contact_belongs_to_its_creator
  (contact : schemas.ContactCreate.t) (db : DB) (u v : models.User.t) :
  finds_created_contact db contact (models.User.id u) ->
  models.User.id v <> models.User.id u ->
  let db1 := fst (main.create_contact contact db u) in
  let new_id := models.Contact.id (snd (main.create_contact contact db u)) in
  (forall data,
     main.update_contact new_id data db1 u =
       (fst (crud.update_contact db1 data new_id),
        Return (snd (crud.update_contact db1 data new_id))) /\
     exists e, main.update_contact new_id data db1 v = (db1, Raise e) /\
               status_code e = 404) /\
  fst (main.delete_contact new_id db1 u) =
    fst (crud.delete_contact db1 new_id) /\
  (exists e, main.delete_contact new_id db1 v = (db1, Raise e) /\
             status_code e = 404).
Proof.
  unfold finds_created_contact, main.create_contact.
  intros [Hget Hown] Hne. cbv zeta.
  set (db1 := fst (crud.create_contact db contact (models.User.id u))) in *.
  set (created := snd (crud.create_contact db contact (models.User.id u))) in *.
  assert (Ru : main.refuses u
                 (crud.get_contact db1 (models.Contact.id created)) = false).
  { apply refuses_false. now exists created. }
  assert (Rv : main.refuses v
                 (crud.get_contact db1 (models.Contact.id created)) = true).
  { apply refuses_spec. right. exists created. split; [exact Hget | congruence]. }
  split; [intros data; split | split].
  - now apply update_contact_allowed.
  - rewrite (update_contact_refused _ _ _ _ Rv). now eexists.
  - now rewrite (delete_contact_allowed _ _ _ Ru).
  - rewrite (delete_contact_refused _ _ _ Rv). now eexists.
Qed.

End SequenceProperties.

(** ** The further statements at the concrete deployment *)

Section DeploymentRoutes.
#[local] Existing Instance demo.signer.
#[local] Existing Instance demo.builtins.
#[local] Existing Instance demo.issuer.
#[local] Existing Instance demo.store.

(** A request without a token, and a request with the forged one. *)
Lemma unauthenticated_request_is_refused_witness :
  main.GET_contacts 1000 None 0 10 demo.db =
    (demo.db, mkResponse 401 main.bearer_challenge None) /\
  main.DELETE_contact 1000 (Some demo.forged_token) 3 demo.db =
    (demo.db, mkResponse 401 main.bearer_challenge None).
Proof.
  split.
  - apply (@unauthenticated_request_is_refused table.DB demo.store demo.signer
             demo.builtins
             demo.issuer 1000 demo.db None).
    intros u H. discriminate H.
  - apply (@unauthenticated_request_is_refused table.DB demo.store demo.signer
             demo.builtins
             demo.issuer 1000 demo.db (Some demo.forged_token)).
    intros u H. vm_compute in H. discriminate H.
Defined.

(** Alice and bob on the page of the first three contacts. *)
Lemma pages_of_two_users_are_disjoint_witness :
  ~ In (demo.contact 3 "cat" 1) (main.read_contacts 0 3 demo.db demo.bob) /\
  (List.length (main.read_contacts 0 3 demo.db demo.alice) +
   List.length (main.read_contacts 0 3 demo.db demo.bob) <=
   List.length (crud.get_contacts demo.db 0 3))%nat.
Proof.
  destruct (@pages_of_two_users_are_disjoint table.DB demo.store demo.alice
              demo.bob) as [Hdisjoint Hshare].
  - simpl. lia.
  - split; [| apply Hshare].
    apply (Hdisjoint 0 10 demo.db 0 3 demo.db). vm_compute. auto.
Defined.

(** The access token of alice, good at 1000 and at its last second 2800,
    at 2000. *)
Lemma token_is_accepted_over_an_interval_witness :
  main.get_current_user 2000 demo.db demo.alice_access_token =
    Return demo.alice.
Proof.
  apply (@token_is_accepted_over_an_interval table.DB demo.store demo.signer
           demo.builtins demo.issuer 1000 2000 2800 demo.db
           demo.alice_access_token demo.alice demo.alice).
  - lia.
  - reflexivity.
  - reflexivity.
Defined.

Lemma other_algorithm_is_refused_witness :
  main.get_current_user 1000 demo.db demo.alice_token_other_algorithm =
    Raise main.credentials_exception.
Proof.
  apply (@other_algorithm_is_refused table.DB demo.store demo.signer
             demo.builtins
           demo.issuer 1000 demo.db "HS512").
  intros H. vm_compute in H. discriminate H.
Defined.

(** The token of alice without expiry, good at 1000, at the end of the
    century. *)
Lemma token_without_expiry_never_expires_witness :
  main.get_current_user 4102444800 demo.db demo.alice_token_without_expiry =
    Return demo.alice.
Proof.
  apply (@token_without_expiry_never_expires table.DB demo.store demo.signer
           demo.builtins demo.issuer 1000 4102444800 demo.db "HS256"
           [("sub"%string, JStr "alice@example.com")]
           (jwt.sign "server-secret" "HS256"
              [("sub"%string, JStr "alice@example.com")])
           demo.alice).
  - reflexivity.
  - lia.
  - reflexivity.
Defined.

(** The store and the store without its contacts. *)
Lemma resolver_reads_users_by_email_only_witness :
  main.get_current_user 1000 demo.db demo.alice_access_token =
  main.get_current_user 1000 demo.db_users_only demo.alice_access_token.
Proof.
  apply (@resolver_reads_users_by_email_only table.DB demo.store demo.signer
             demo.builtins
           demo.issuer 1000 demo.db demo.db_users_only).
  intros email. reflexivity.
Defined.


(** Alice creates a contact; bob tries to delete it. *)
Lemma created_contact_belongs_to_its_creator_witness :
  fst (main.delete_contact 5
         (fst (main.create_contact demo.new_contact demo.db demo.alice))
         demo.alice) = demo.db /\
  exists e,
    main.delete_contact 5
      (fst (main.create_contact demo.new_contact demo.db demo.alice))
      demo.bob =
      (fst (main.create_contact demo.new_contact demo.db demo.alice), Raise e) /\
    status_code e = 404.
Proof.
  destruct (@created_contact_belongs_to_its_creator table.DB demo.store
              demo.new_contact demo.db demo.alice demo.bob)
    as (_ & Hdelete & Hrefused).
  - split; reflexivity.
  - simpl. lia.
  - split; [| exact Hrefused].
    etransitivity; [exact Hdelete | reflexivity].
Defined.

(** Alice asks for contact 99, which nobody has, and for contact 1, which
    is bob's. *)
Lemma refusals_do_not_tell_missing_from_foreign_witness :
  snd (main.update_contact 99 demo.new_contact demo.db demo.alice) =
    snd (main.update_contact 1 demo.new_contact demo.db demo.alice) /\
  snd (main.delete_contact 99 demo.db demo.alice) =
    snd (main.delete_contact 1 demo.db demo.alice).
Proof.
  apply (@refusals_do_not_tell_missing_from_foreign table.DB demo.store
           demo.alice demo.alice 99 1 demo.new_contact demo.new_contact
           demo.db demo.db).
  - reflexivity.
  - exists (demo.contact 1 "ann" 2). split; [reflexivity | simpl; lia].
Defined.

End DeploymentRoutes.
